(** * smt-form: a shallow embedding of the form library and its contracts

    The library is glue between three external packages: a schema validator
    (zod), a form-state manager (react-hook-form) and a rendering framework
    (React).  The file is organised as follows.

    - [Zod], [Resolvers], [RHF]: the parts of the external packages that the
      library's code calls, as state-passing functions over a heap of form
      stores.  They are not code of this repository; they transcribe the
      packages' documented behaviour and are kept as small as the calls need.
    - [React]: element trees, JS objects as finite maps of props, the render
      environment carrying the context providers.
    - [Ui]: the repository's [components/ui] wrappers used by the fields.
    - the four field components, [GenericForm], and the life cycle of one
      mounted form.
    - the properties. *)

From Stdlib Require Import Ascii String ZArith List.
From stdpp Require Import base option list gmap strings fin_maps.

Set Warnings "-register-all".

Open Scope string_scope.

(** ** Form values *)

(** A leaf value of the form's value object.  JavaScript's [undefined] is a
    value of its own: it is what reading an absent path gives. *)
Inductive Value :=
| VUndefined
| VString (s : string)
| VBool (b : bool)
| VNumber (n : Z).

#[global] Instance Value_eq_dec : EqDecision Value.
Proof. solve_decision. Defined.

(** [Path<T>]: the key a field component binds to. *)
Abbreviation Path := string (only parsing).

(** The form's value object [T extends FieldValues].  The library reads and
    writes it only at whole field paths, so it is kept as the finite map from
    field path to leaf value.  The map is the object itself for the paths that
    are one key of it ([RHF.isKey]); a path with dots or brackets addresses a
    nested object, which the map does not have. *)
Abbreviation FieldValues := (gmap string Value).

(** Reading [object] at [path]; an absent path reads as [undefined]. *)
Definition get (object : FieldValues) (path : Path) : Value :=
  default VUndefined (object !! path).

(** ** The schema validator *)

Module Zod.

(** One issue of a failed parse: where, what kind, and the message. *)
Record ZodIssue := mkIssue {
  path : Path;
  code : string;
  message : string
}.

(** The result of parsing a candidate value object.  A failed parse carries
    at least one issue. *)
Inductive SafeParseReturnType :=
| success (data : FieldValues)
| failure (issue : ZodIssue) (issues : list ZodIssue).

(** [z.ZodSchema<T>]: the externally supplied validation ruleset. *)
Definition ZodSchema := FieldValues -> SafeParseReturnType.

End Zod.

(** ** The resolver that adapts a schema to the form-state manager *)

Module Resolvers.
Import Zod.

Record FieldError := mkFieldError {
  type : string;
  error_message : string
}.

#[global] Instance FieldError_eq_dec : EqDecision FieldError.
Proof. solve_decision. Defined.

(** [FieldErrors<T>]: error objects keyed by field path. *)
Abbreviation FieldErrors := (gmap string FieldError).

Record ResolverResult := mkResolverResult {
  values : FieldValues;
  errors : FieldErrors
}.

Definition Resolver := FieldValues -> ResolverResult.

(** The error object made of an issue. *)
Definition field_error (issue : ZodIssue) : FieldError :=
  mkFieldError (code issue) (message issue).

(** The first issue reported for a path. *)
Definition issue_at (p : Path) (issues : list ZodIssue) : option ZodIssue :=
  List.find (fun issue => bool_decide (path issue = p)) issues.

(** The issues are visited in order; a path keeps the first issue reported
    for it. *)
Fixpoint parseErrorSchema (zodErrors : list ZodIssue) (acc : FieldErrors)
  : FieldErrors :=
  match zodErrors with
  | [] => acc
  | error :: rest =>
      match acc !! path error with
      | Some _ => parseErrorSchema rest acc
      | None =>
          parseErrorSchema rest (<[path error := field_error error]> acc)
      end
  end.

Definition zodResolver (schema : ZodSchema) : Resolver :=
  fun candidate =>
    match schema candidate with
    | success data => {| values := data; errors := ∅ |}
    | failure issue issues =>
        {| values := ∅; errors := parseErrorSchema (issue :: issues) ∅ |}
    end.

End Resolvers.

(** ** The form-state manager *)

Module RHF.
Import Resolvers.

(** [isKey(path)]: the path is one key of the value object, made of word
    characters only ([/^\w*$/]), so that reading and writing at the path
    reads and writes one own property of the object. *)
Definition isKey (path : Path) : bool :=
  forallb
    (fun a =>
       let n := nat_of_ascii a in
       ((48 <=? n) && (n <=? 57) || (65 <=? n) && (n <=? 90)
        || (97 <=? n) && (n <=? 122) || (n =? 95))%nat)
    (list_ascii_of_string path).

(** The paths at which the flat map is the value object: one key that is an
    own property once written.  Left out are the empty path, which [get]
    reads as undefined, and the names that every object inherits or that
    [set] refuses to write. *)
Definition plain_key (path : Path) : bool :=
  isKey path
  && negb (bool_decide
             (path ∈ [""; "__proto__"; "constructor"; "prototype";
                      "hasOwnProperty"; "isPrototypeOf";
                      "propertyIsEnumerable"; "toLocaleString"; "toString";
                      "valueOf"; "__defineGetter__"; "__defineSetter__";
                      "__lookupGetter__"; "__lookupSetter__"])).

(** The members of [FormState<T>] that the submission and the message slots
    turn on: the errors and the record of submissions.  The other members
    (isDirty, dirtyFields, touchedFields, isValid and the like) are not
    kept. *)
Record FormState := mkFormState {
  errors : FieldErrors;
  isSubmitted : bool;
  isSubmitSuccessful : bool;
  submitCount : nat
}.

Definition initialFormState : FormState :=
  {| errors := ∅; isSubmitted := false; isSubmitSuccessful := false;
     submitCount := 0 |}.

(** The options of [useForm] that the library sets. *)
Record UseFormProps := mkUseFormProps {
  defaultValues : FieldValues;
  resolver : option Resolver
}.

(** The store behind one form: what [createFormControl] closes over. *)
Record Control := mkControl {
  _defaultValues : FieldValues;
  _formValues : FieldValues;
  _formState : FormState;
  _options : UseFormProps
}.

(** Stores live in a heap; a form object refers to its store by address. *)
Abbreviation Heap := (gmap nat Control).

(** [UseFormReturn<T>]: the object [useForm] returns.  [control] is the
    address of the store, [formState] the hook's own copy of the form state
    as of the render that obtained the object; the methods are the functions
    below applied to this object. *)
Record UseFormReturn := mkForm {
  control : nat;
  formState : FormState
}.

Definition createFormControl (props : UseFormProps) : Control :=
  {| _defaultValues := defaultValues props;
     _formValues := defaultValues props;
     _formState := initialFormState;
     _options := props |}.

Definition set_options (props : UseFormProps) (c : Control) : Control :=
  {| _defaultValues := _defaultValues c;
     _formValues := _formValues c;
     _formState := _formState c;
     _options := props |}.

(** [useForm(props)].  The hook has two cells in the component instance.
    [slot] refers to the store: it is empty on the first render, when the
    store is created from [props]; on a later render the same store is
    returned and only its options follow the new [props].  [state] is the
    hook's own copy of the form state, which [form.formState] shows.  It is
    not the store's [_formState]: the store hands a change over to the hook
    only for the members that some render has read through [form.formState],
    and no component of this repository reads one (the message slots read
    the store), so a render finds the copy as the first render made it.
    Reading members through the handle from outside is not among the
    actions below. *)
Definition useForm (props : UseFormProps) (slot : option nat)
  (state : FormState) (heap : Heap)
  : UseFormReturn * option nat * FormState * Heap :=
  match slot with
  | None =>
      let l := fresh (dom heap) in
      (mkForm l initialFormState, Some l, initialFormState,
       <[l := createFormControl props]> heap)
  | Some l => (mkForm l state, Some l, state, alter (set_options props) l heap)
  end.

(** *** Operations on one store *)

(** [setValue(name, value)] with no options: the value is written at the
    path and nothing is validated.  For a path that is one key this is the
    write of one own property. *)
Definition _setValue (name : Path) (value : Value) (c : Control) : Control :=
  {| _defaultValues := _defaultValues c;
     _formValues := <[name := value]> (_formValues c);
     _formState := _formState c;
     _options := _options c |}.

(** [reset(values)]: without an argument the values return to the store's
    default values; with one, the argument becomes both the values and the
    new default values (an empty object resets the values to the previous
    defaults).  The form state starts over.  This is the store as [reset]
    leaves it.  The fields are registered again by the render that follows,
    which may write at a path that the new values lack; that write is not
    modelled, so what is said below of a field after a reset is said of the
    paths the new values have. *)
Definition _reset (formValues : option FieldValues) (c : Control) : Control :=
  let updatedValues := default (_defaultValues c) formValues in
  let isEmptyResetValues :=
    match formValues with
    | Some v => bool_decide (v = ∅)
    | None => true
    end in
  let values := if isEmptyResetValues then _defaultValues c else updatedValues in
  {| _defaultValues := updatedValues;
     _formValues := values;
     _formState := initialFormState;
     _options := _options c |}.

(** Validation at submission: the resolver, when there is one, decides the
    errors and the data; otherwise the built-in validation runs, and the
    fields of this library register no rules with it. *)
Definition _executeValidation (c : Control) : FieldErrors * FieldValues :=
  match resolver (_options c) with
  | Some resolve =>
      let result := resolve (_formValues c) in
      (Resolvers.errors result, Resolvers.values result)
  | None => (errors (_formState c), _formValues c)
  end.

(** [handleSubmit(onValid)] run on a submit event: the new store and, when
    the errors are empty, the data [onValid] is called with. *)
Definition _handleSubmit (c : Control) : Control * option FieldValues :=
  let '(errs, fieldValues) := _executeValidation c in
  let valid := bool_decide (errs = ∅) in
  ({| _defaultValues := _defaultValues c;
      _formValues := _formValues c;
      _formState :=
        {| errors := errs;
           isSubmitted := true;
           isSubmitSuccessful := valid;
           submitCount := S (submitCount (_formState c)) |};
      _options := _options c |},
   if valid then Some fieldValues else None).

(** [field.onChange(value)]: the value is written as by [_setValue]; once
    the form has been submitted the field is validated again and only its
    own error is updated.  Before that the errors and the record of
    submissions stay as they are. *)
Definition _onChange (name : Path) (value : Value) (c : Control) : Control :=
  let c' := _setValue name value c in
  if isSubmitted (_formState c) then
    let found :=
      match resolver (_options c) with
      | Some resolve => Resolvers.errors (resolve (_formValues c')) !! name
      | None => None
      end in
    let st := _formState c in
    {| _defaultValues := _defaultValues c';
       _formValues := _formValues c';
       _formState :=
         {| errors :=
              match found with
              | Some e => <[name := e]> (errors st)
              | None => delete name (errors st)
              end;
            isSubmitted := isSubmitted st;
            isSubmitSuccessful := isSubmitSuccessful st;
            submitCount := submitCount st |};
       _options := _options c' |}
  else c'.

(** *** The methods of a form object

    [form.getValues], [form.reset] and the others close over the form's
    store; [l] is the address of that store, [control form]. *)

Definition getValues (l : nat) (heap : Heap) : FieldValues :=
  from_option _formValues ∅ (heap !! l).

Definition setValue (l : nat) (name : Path) (value : Value) (heap : Heap)
  : Heap :=
  alter (_setValue name value) l heap.

Definition reset (l : nat) (values : option FieldValues) (heap : Heap) : Heap :=
  alter (_reset values) l heap.

Definition handleSubmit {A : Type} (l : nat) (onValid : FieldValues -> A)
  (heap : Heap) : Heap * option A :=
  match heap !! l with
  | Some c =>
      let '(c', data) := _handleSubmit c in
      (<[l := c']> heap, onValid <$> data)
  | None => (heap, None)
  end.

Definition onChange (l : nat) (name : Path) (value : Value) (heap : Heap)
  : Heap :=
  alter (_onChange name value) l heap.

End RHF.

(** ** Rendering *)

Module React.
Import RHF.

(** What an element is an element of: a host tag, one of the repository's
    [components/ui] wrappers, or the icon. *)
Inductive ElementType :=
| form_ | div | span
| Form | FormItem | FormLabel | FormControl | FormMessage
| Input | Button | Checkbox
| Select | SelectTrigger | SelectValue | SelectContent | SelectItem
| X.

#[global] Instance ElementType_eq_dec : EqDecision ElementType.
Proof. solve_decision. Defined.

(** Functions that end up in props.  The ones made by the form-state manager
    are named by the store and field they act on; [callback] stands for a
    function supplied by the caller. *)
Inductive EventHandler :=
| field_onChange (control : nat) (name : Path)
| field_onBlur (control : nat) (name : Path)
| handleSubmit_onSubmit (control : nat)
| callback (id : nat).

Inductive PropValue :=
| PVal (v : Value)
| PHandler (h : EventHandler)
| PRef (control : nat) (name : Path).

(** A props object.  JSX attributes are written into it from left to right,
    so an attribute after a spread overrides the spread's key. *)
Abbreviation Props := (gmap string PropValue).

Definition jsx (spread : Props) (attributes : list (string * PropValue))
  : Props :=
  foldl (fun props kv => <[kv.1 := kv.2]> props) spread attributes.

Definition str (s : string) : PropValue := PVal (VString s).
Definition boolean (b : bool) : PropValue := PVal (VBool b).
Definition number (n : Z) : PropValue := PVal (VNumber n).
Definition opt_str (s : option string) : PropValue :=
  from_option str (PVal VUndefined) s.
Definition opt_bool (b : option bool) : PropValue :=
  from_option boolean (PVal VUndefined) b.
Definition opt_handler (h : option EventHandler) : PropValue :=
  from_option PHandler (PVal VUndefined) h.

(** The rendered tree.  [nothing] is what [false], [null] and [undefined]
    render as. *)
Inductive Element :=
| createElement (type : ElementType) (props : Props) (children : list Element)
| text (s : string)
| nothing.

(** [s && e] for a string [s] that may be undefined: an undefined or empty
    string is falsy and is itself the result. *)
Definition and_string (s : option string) (e : Element) : Element :=
  match s with
  | None => nothing
  | Some EmptyString => text ""
  | Some _ => e
  end.

(** [b && e] for a boolean [b] that may be undefined. *)
Definition and_bool (b : option bool) (e : Element) : Element :=
  match b with
  | Some true => e
  | _ => nothing
  end.

(** [f && e] for a function [f] that may be undefined. *)
Definition and_function (f : option EventHandler) (e : Element) : Element :=
  match f with
  | Some _ => e
  | None => nothing
  end.

(** What a component renders under: the stores as they are at this render
    and the values of the enclosing context providers. *)
Record RenderEnv := mkEnv {
  env_heap : Heap;
  formContext : option UseFormReturn;
  formFieldContext : option Path
}.

(** A component with its props applied.  Rendering fails ([None]) where the
    JavaScript throws. *)
Definition Component := RenderEnv -> option Element.

(** [useFormContext()]: the value of the nearest form provider, if any. *)
Definition useFormContext (env : RenderEnv) : option UseFormReturn :=
  formContext env.

(** *** Reading a rendered tree *)

(** The first element of the given type, in document order. *)
Fixpoint query (ty : ElementType) (e : Element) : option Element :=
  match e with
  | createElement ty' props children =>
      if decide (ty' = ty) then Some e
      else
        (fix query_first (es : list Element) : option Element :=
           match es with
           | [] => None
           | e' :: es' =>
               match query ty e' with
               | Some r => Some r
               | None => query_first es'
               end
           end) children
  | _ => None
  end.

(** [query] over a list of siblings. *)
Fixpoint query_list (ty : ElementType) (es : list Element) : option Element :=
  match es with
  | [] => None
  | e :: es' =>
      match query ty e with
      | Some r => Some r
      | None => query_list ty es'
      end
  end.

(** The last element of the given type, in document order. *)
Fixpoint query_last (ty : ElementType) (e : Element) : option Element :=
  match e with
  | createElement ty' props children =>
      match
        (fix query_from_end (es : list Element) : option Element :=
           match es with
           | [] => None
           | e' :: es' =>
               match query_from_end es' with
               | Some r => Some r
               | None => query_last ty e'
               end
           end) children
      with
      | Some r => Some r
      | None => if decide (ty' = ty) then Some e else None
      end
  | _ => None
  end.

Fixpoint query_last_list (ty : ElementType) (es : list Element)
  : option Element :=
  match es with
  | [] => None
  | e :: es' =>
      match query_last_list ty es' with
      | Some r => Some r
      | None => query_last ty e
      end
  end.

Definition props_of (e : Element) : Props :=
  match e with
  | createElement _ props _ => props
  | _ => ∅
  end.

Definition children_of (e : Element) : list Element :=
  match e with
  | createElement _ _ children => children
  | _ => []
  end.

Definition type_of (e : Element) : option ElementType :=
  match e with
  | createElement ty _ _ => Some ty
  | _ => None
  end.

(** The text a tree shows: its text nodes, in document order. *)
Fixpoint textContent (e : Element) : string :=
  match e with
  | createElement _ _ children =>
      (fix concat_all (es : list Element) : string :=
         match es with
         | [] => ""
         | e' :: es' => textContent e' +:+ concat_all es'
         end) children
  | text s => s
  | nothing => ""
  end.

End React.

(** ** The repository's [components/ui/form] wrappers *)

Module Ui.
Import RHF React.

(** The [field] object a controlled field is rendered with. *)
Record ControllerRenderProps := mkField {
  onChange : EventHandler;
  onBlur : EventHandler;
  value : Value;
  name : Path;
  ref : PropValue
}.

(** [{...field}] *)
Definition spread_field (field : ControllerRenderProps) : Props :=
  jsx ∅ [("onChange", PHandler (onChange field));
         ("onBlur", PHandler (onBlur field));
         ("value", PVal (value field));
         ("name", str (name field));
         ("ref", ref field)].

(** Modelled from the spec: [FormField] of [components/ui/form], which is not
    among the sources.  It propagates the per-field render state from the
    form's store to the leaf: the render prop receives a [field] whose value
    is the store's current value at [name] and whose handlers write to that
    store, and what it renders sits under a provider of [name]. *)
Definition FormField (control : nat) (name : Path)
  (render : ControllerRenderProps -> Component) : Component :=
  fun env =>
    c ← env_heap env !! control;
    render
      {| onChange := field_onChange control name;
         onBlur := field_onBlur control name;
         value := get (_formValues c) name;
         name := name;
         ref := PRef control name |}
      {| env_heap := env_heap env;
         formContext := formContext env;
         formFieldContext := Some name |}.

(** Modelled from the spec: [FormMessage] of [components/ui/form], which is
    not among the sources.  It is the message slot of a field: it shows the
    validation error text the form state holds for the enclosing field's
    path, and nothing when there is no error.  It cannot be used outside a
    form and a field. *)
Definition FormMessage (className : option string) : Component :=
  fun env =>
    form ← useFormContext env;
    name ← formFieldContext env;
    c ← env_heap env !! control form;
    match errors (_formState c) !! name with
    | Some error =>
        Some (createElement React.FormMessage
                (jsx ∅ [("className", opt_str className)])
                [text (Resolvers.error_message error)])
    | None => Some nothing
    end.

End Ui.

(** ** [types/index.ts] *)

Module BaseFieldProps.
Record t := mk {
  name : Path;
  label : option string;
  placeholder : option string;
  required : option bool;
  disabled : option bool;
  className : option string
}.
End BaseFieldProps.

Module SelectOption.
Record t := mk {
  value : string;
  text : string;
  disabled : option bool
}.
End SelectOption.

Module GenericFormProps.
Record t (A : Type) := mk {
  schema : option Zod.ZodSchema;
  initialValues : FieldValues;
  onSubmit : FieldValues -> A;
  children : list React.Component;
  className : option string
}.
Arguments mk {A}.
Arguments schema {A}.
Arguments initialValues {A}.
Arguments onSubmit {A}.
Arguments children {A}.
Arguments className {A}.
End GenericFormProps.

(** [GenericFormRef<T>]: the object behind the ref, as the JS object it is:
    its own keys in the order they are written, each with its member.  A
    member that is a function acts on the heap of stores. *)
Module GenericFormRef.
Import RHF.

Inductive Member :=
| getValues_ (f : Heap -> FieldValues)
| reset_ (f : option FieldValues -> Heap -> Heap)
| setValue_ (f : Path -> Value -> Heap -> Heap)
| formState_ (s : FormState)
| control_ (c : nat)
| form_ (f : UseFormReturn).

Definition t := list (string * Member).

Definition keys (handle : t) : list string := handle.*1.

Fixpoint member (key : string) (handle : t) : option Member :=
  match handle with
  | [] => None
  | (k, m) :: rest => if decide (k = key) then Some m else member key rest
  end.

(** [handle.getValues()] and the like: calling a member that is not there,
    or is not a function of the right kind, is an error. *)
Definition getValues (handle : t) (heap : Heap) : option FieldValues :=
  match member "getValues" handle with
  | Some (getValues_ f) => Some (f heap)
  | _ => None
  end.

Definition reset (handle : t) (values : option FieldValues) (heap : Heap)
  : option Heap :=
  match member "reset" handle with
  | Some (reset_ f) => Some (f values heap)
  | _ => None
  end.

Definition setValue (handle : t) (name : Path) (value : Value) (heap : Heap)
  : option Heap :=
  match member "setValue" handle with
  | Some (setValue_ f) => Some (f name value heap)
  | _ => None
  end.

Definition formState (handle : t) : option FormState :=
  match member "formState" handle with
  | Some (formState_ s) => Some s
  | _ => None
  end.

End GenericFormRef.

(** ** The field components *)

Module TextFieldProps.
Inductive InputType := text | email | number | password | tel | url.

Definition type_name (ty : InputType) : string :=
  match ty with
  | text => "text" | email => "email" | number => "number"
  | password => "password" | tel => "tel" | url => "url"
  end.

Record t := mk {
  base : BaseFieldProps.t;
  type : option InputType;
  action : option React.EventHandler;
  icon : option React.Element;
  loading : option bool;
  inputClass : option string
}.
End TextFieldProps.

Module SelectFieldProps.
Record t := mk {
  base : BaseFieldProps.t;
  options : list SelectOption.t
}.
End SelectFieldProps.

Module SubmitButtonProps.
Inductive Width := full | auto.

Record t := mk {
  label : option string;
  loadingLabel : option string;
  isLoading : option bool;
  disabled : option bool;
  width : option Width;
  className : option string
}.
End SubmitButtonProps.

Section Fields.
Import RHF React Ui.

(** [cn] of [lib/utils], which is not among the sources: it merges class
    names, some of which may be undefined, into one class string. *)
Variable cn : list (option string) -> string.

(** A string interpolated into a template literal. *)
Definition interpolate (s : option string) : string := default "undefined" s.

Definition TextField (p : TextFieldProps.t) : Component :=
  let name := BaseFieldProps.name (TextFieldProps.base p) in
  let label := BaseFieldProps.label (TextFieldProps.base p) in
  let type := default TextFieldProps.text (TextFieldProps.type p) in
  let placeholder :=
    default "Enter value" (BaseFieldProps.placeholder (TextFieldProps.base p)) in
  let required := default false (BaseFieldProps.required (TextFieldProps.base p)) in
  let action := TextFieldProps.action p in
  let icon :=
    default
      (createElement X
         (jsx ∅ [("size", number 16); ("className", str "text-muted-foreground")])
         [])
      (TextFieldProps.icon p) in
  let loading := TextFieldProps.loading p in
  let disabled := default false (BaseFieldProps.disabled (TextFieldProps.base p)) in
  let className := BaseFieldProps.className (TextFieldProps.base p) in
  let inputClass := TextFieldProps.inputClass p in
  fun env =>
    form ← useFormContext env;
    FormField (control form) name (fun field env' =>
      message ← Ui.FormMessage (Some "line-clamp-1 text-xs") env';
      Some
        (createElement FormItem (jsx ∅ [("className", opt_str className)])
           [and_string label
              (createElement FormLabel (jsx ∅ [("htmlFor", str name)])
                 [createElement span ∅ [React.text (default "" label)];
                  and_bool (Some required)
                    (createElement span
                       (jsx ∅ [("className", str "ml-1 text-red-500")])
                       [React.text "*"])]);
            createElement FormControl ∅
              [createElement div
                 (jsx ∅ [("className", str "relative flex items-center gap-2")])
                 [createElement Input
                    (jsx (spread_field field)
                       [("type", str (TextFieldProps.type_name type));
                        ("placeholder", str placeholder);
                        ("className",
                         str ("w-full " +:+ interpolate inputClass +:+ " "
                              +:+ (if action is Some _ then "pr-12" else "")));
                        ("id", str name);
                        ("disabled", boolean disabled)])
                    [];
                  and_bool loading
                    (createElement div
                       (jsx ∅ [("className",
                                str "absolute right-4 animate-spin rounded-full h-4 w-4 border-2 border-gray-300 border-t-gray-600")])
                       []);
                  and_function action
                    (createElement Button
                       (jsx ∅ [("variant", str "ghost");
                               ("size", str "sm");
                               ("onClick", opt_handler action);
                               ("type", str "button");
                               ("className", str "absolute right-0.5 top-0.5");
                               ("disabled", boolean disabled)])
                       [icon])]];
            message])) env.

Definition SelectField (p : SelectFieldProps.t) : Component :=
  let name := BaseFieldProps.name (SelectFieldProps.base p) in
  let label := BaseFieldProps.label (SelectFieldProps.base p) in
  let options := SelectFieldProps.options p in
  let placeholder :=
    default "Select an option"
      (BaseFieldProps.placeholder (SelectFieldProps.base p)) in
  let required := default false (BaseFieldProps.required (SelectFieldProps.base p)) in
  let disabled := default false (BaseFieldProps.disabled (SelectFieldProps.base p)) in
  let className := BaseFieldProps.className (SelectFieldProps.base p) in
  fun env =>
    form ← useFormContext env;
    FormField (control form) name (fun field env' =>
      message ← Ui.FormMessage None env';
      Some
        (createElement FormItem (jsx ∅ [("className", opt_str className)])
           [and_string label
              (createElement FormLabel ∅
                 [createElement span ∅ [React.text (default "" label)];
                  and_bool (Some required)
                    (createElement span
                       (jsx ∅ [("className", str "ml-1 text-red-500")])
                       [React.text "*"])]);
            createElement Select
              (jsx ∅ [("onValueChange", PHandler (onChange field));
                      ("value", PVal (value field));
                      ("disabled", boolean disabled)])
              [createElement FormControl ∅
                 [createElement SelectTrigger ∅
                    [createElement SelectValue
                       (jsx ∅ [("placeholder", str placeholder)]) []]];
               createElement SelectContent ∅
                 (map (fun option =>
                         createElement SelectItem
                           (jsx ∅ [("key", str (SelectOption.value option));
                                   ("value", str (SelectOption.value option));
                                   ("disabled",
                                    opt_bool (SelectOption.disabled option))])
                           [React.text (SelectOption.text option)])
                      options)];
            message])) env.

Definition CheckboxField (p : BaseFieldProps.t) : Component :=
  let name := BaseFieldProps.name p in
  let label := BaseFieldProps.label p in
  let required := BaseFieldProps.required p in
  let disabled := BaseFieldProps.disabled p in
  let className := BaseFieldProps.className p in
  fun env =>
    form ← useFormContext env;
    FormField (control form) name (fun field env' =>
      message ← Ui.FormMessage None env';
      Some
        (createElement FormItem
           (jsx ∅ [("className",
                    str (cn [Some "flex flex-row items-start space-x-3 space-y-0";
                             className]))])
           [createElement FormControl ∅
              [createElement Checkbox
                 (jsx ∅ [("checked", PVal (value field));
                         ("onCheckedChange", PHandler (onChange field));
                         ("disabled", opt_bool disabled);
                         ("required", opt_bool required)])
                 []];
            createElement div
              (jsx ∅ [("className", str "space-y-1 leading-none")])
              [and_string label
                 (createElement FormLabel
                    (jsx ∅ [("className", str "text-sm font-normal")])
                    [React.text (default "" label);
                     and_bool required
                       (createElement span
                          (jsx ∅ [("className", str "text-destructive ml-1")])
                          [React.text "*"])]);
               message]])) env.

(** [SubmitButton] calls no hook: what it renders is decided by its props. *)
Definition SubmitButton (p : SubmitButtonProps.t) : Element :=
  let label := default "Submit" (SubmitButtonProps.label p) in
  let loadingLabel := default "Submitting..." (SubmitButtonProps.loadingLabel p) in
  let isLoading := default false (SubmitButtonProps.isLoading p) in
  let disabled := default false (SubmitButtonProps.disabled p) in
  let width := default SubmitButtonProps.full (SubmitButtonProps.width p) in
  let className := SubmitButtonProps.className p in
  createElement Button
    (jsx ∅ [("type", str "submit");
            ("className",
             str (cn [Some "transition-all duration-200";
                      Some (match width with
                            | SubmitButtonProps.full => "w-full"
                            | SubmitButtonProps.auto => "w-auto"
                            end);
                      className]));
            ("disabled", boolean (isLoading || disabled))])
    [if isLoading then
       createElement div (jsx ∅ [("className", str "flex items-center gap-2")])
         [createElement div
            (jsx ∅ [("className",
                     str "w-4 h-4 border-2 border-white/30 border-t-white rounded-full animate-spin")])
            [];
          React.text loadingLabel]
     else React.text label].

(** A component that uses nothing of the render environment. *)
Definition static (e : Element) : Component := fun _ => Some e.

(** *** The leaves, uniformly *)

(** The three components that bind to a field path. *)
Inductive Field :=
| text_field (p : TextFieldProps.t)
| select_field (p : SelectFieldProps.t)
| checkbox_field (p : BaseFieldProps.t).

Definition field_name (f : Field) : Path :=
  match f with
  | text_field p => BaseFieldProps.name (TextFieldProps.base p)
  | select_field p => BaseFieldProps.name (SelectFieldProps.base p)
  | checkbox_field p => BaseFieldProps.name p
  end.

Definition field_base (f : Field) : BaseFieldProps.t :=
  match f with
  | text_field p => TextFieldProps.base p
  | select_field p => SelectFieldProps.base p
  | checkbox_field p => p
  end.

Definition render_field (f : Field) : Component :=
  match f with
  | text_field p => TextField p
  | select_field p => SelectField p
  | checkbox_field p => CheckboxField p
  end.

(** The value a rendered field shows: the [value] of the text field's input
    and of the select, the [checked] of the checkbox. *)
Definition rendered_value (f : Field) (e : Element) : option PropValue :=
  match f with
  | text_field _ => i ← query Input e; props_of i !! "value"
  | select_field _ => s ← query Select e; props_of s !! "value"
  | checkbox_field _ => c ← query Checkbox e; props_of c !! "checked"
  end.

(** The text in a rendered field's message slot, if the slot shows any.  In
    each of the three fields the slot is the last thing rendered. *)
Definition message_text (e : Element) : option string :=
  textContent <$> query_last React.FormMessage e.

Inductive Leaf :=
| field (f : Field)
| submit_button (p : SubmitButtonProps.t).

Definition render_leaf (leaf : Leaf) : Component :=
  match leaf with
  | field f => render_field f
  | submit_button p => static (SubmitButton p)
  end.

End Fields.

(** A concrete class merger to run the components with: the class names that
    are defined, separated by spaces. *)
Fixpoint join_classes (classes : list (option string)) : string :=
  match classes with
  | [] => ""
  | None :: rest => join_classes rest
  | Some c :: rest =>
      match join_classes rest with
      | EmptyString => c
      | others => c +:+ " " +:+ others
      end
  end.

(** ** [components/GenericForm.tsx] *)

Section GenericForm.
Import RHF React Resolvers.
Context {A : Type}.

(** One [GenericForm] instance and what surrounds it: the heap of stores,
    the two cells of the instance's [useForm] hook, and the handle objects.
    [handles] holds the objects that the function given to
    [useImperativeHandle] has returned, in the order they were made; an
    object is told from another by its place, as JavaScript tells objects
    apart by reference.  The ref object the parent passed refers to the one
    made last. *)
Record World := mkWorld {
  heap : Heap;
  useForm_slot : option nat;
  useForm_formState : FormState;
  handles : list GenericFormRef.t
}.

(** [ref.current]: the handle the ref refers to. *)
Definition ref_current (w : World) : option GenericFormRef.t :=
  last (handles w).

(** Which object [ref.current] refers to: what [===] compares. *)
Definition ref_address (w : World) : option nat :=
  match handles w with
  | [] => None
  | _ :: rest => Some (length rest)
  end.

(** Before the form is mounted. *)
Definition unmounted : World :=
  {| heap := ∅; useForm_slot := None; useForm_formState := initialFormState;
     handles := [] |}.

(** The object [GenericForm] passes to [useForm]. *)
Definition useFormProps (props : GenericFormProps.t A) : UseFormProps :=
  {| defaultValues := GenericFormProps.initialValues props;
     resolver :=
       match GenericFormProps.schema props with
       | Some schema => Some (zodResolver schema)
       | None => None
       end |}.

(** The function given to [useImperativeHandle]: the object literal it
    returns, built from the [form] of the render that runs it. *)
Definition createHandle (form : UseFormReturn) : GenericFormRef.t :=
  [("getValues", GenericFormRef.getValues_ (getValues (control form)));
   ("reset", GenericFormRef.reset_ (fun values => reset (control form) values));
   ("setValue",
    GenericFormRef.setValue_
      (fun name value => setValue (control form) name value));
   ("formState", GenericFormRef.formState_ (formState form));
   ("control", GenericFormRef.control_ (control form));
   ("form", GenericFormRef.form_ form)].

(** One render of [GenericForm], committed: the tree it returns and the world
    after the commit.  [Form] is the provider of the form context: the
    children are rendered under [form].  The handle is created anew by every
    render, since [useImperativeHandle] is given no dependency list: the
    function is run at every commit and the object it returns is put in the
    ref.  [None] when a child throws, in which case nothing is committed. *)
Definition GenericForm (props : GenericFormProps.t A) (w : World)
  : option (Element * World) :=
  let '(form, slot, state, heap') :=
    useForm (useFormProps props) (useForm_slot w) (useForm_formState w)
      (heap w) in
  let handle := createHandle form in
  children ←
    mapM (fun child : Component => child (mkEnv heap' (Some form) None))
      (GenericFormProps.children props);
  Some
    (createElement Form ∅
       [createElement form_
          (jsx ∅ [("onSubmit", PHandler (handleSubmit_onSubmit (control form)));
                  ("className", opt_str (GenericFormProps.className props))])
          children],
     {| heap := heap'; useForm_slot := slot; useForm_formState := state;
        handles := handles w ++ [handle] |}).

(** *** What happens to a mounted form *)

Inductive Action :=
| Render                                    (* the form is rendered again *)
| Reset (values : option FieldValues)       (* formRef.current?.reset(values) *)
| SetValue (name : Path) (value : Value)    (* formRef.current?.setValue(name, value) *)
| Submit                                    (* the form element's submit event *)
| Change (name : Path) (value : Value).     (* the user edits the field at name *)

Definition with_heap (w : World) (heap' : Heap) : World :=
  {| heap := heap'; useForm_slot := useForm_slot w;
     useForm_formState := useForm_formState w; handles := handles w |}.

(** The submit event runs [form.handleSubmit(onSubmit)]: the world after it
    and, when [onSubmit] was called, what the call evaluates to. *)
Definition submit (props : GenericFormProps.t A) (w : World)
  : World * option A :=
  match useForm_slot w with
  | Some l =>
      let '(heap', called) :=
        handleSubmit l (GenericFormProps.onSubmit props) (heap w) in
      (with_heap w heap', called)
  | None => (w, None)
  end.

Definition step (props : GenericFormProps.t A) (a : Action) (w : World)
  : option (World * option A) :=
  match a with
  | Render =>
      '(_, w') ← GenericForm props w;
      Some (w', None)
  | Reset values =>
      match ref_current w with
      | Some handle =>
          heap' ← GenericFormRef.reset handle values (heap w);
          Some (with_heap w heap', None)
      | None => Some (w, None)
      end
  | SetValue name value =>
      match ref_current w with
      | Some handle =>
          heap' ← GenericFormRef.setValue handle name value (heap w);
          Some (with_heap w heap', None)
      | None => Some (w, None)
      end
  | Submit => Some (submit props w)
  | Change name value =>
      match useForm_slot w with
      | Some l => Some (with_heap w (onChange l name value (heap w)), None)
      | None => Some (w, None)
      end
  end.

(** The worlds a form mounted with [props] goes through. *)
Inductive mounted (props : GenericFormProps.t A) : World -> Prop :=
| mounted_first e w :
    GenericForm props unmounted = Some (e, w) -> mounted props w
| mounted_step a w w' called :
    mounted props w -> step props a w = Some (w', called) -> mounted props w'.

(** A sequence of actions, with the [onSubmit] calls it caused, in order. *)
Fixpoint run (props : GenericFormProps.t A) (actions : list Action) (w : World)
  : option (World * list A) :=
  match actions with
  | [] => Some (w, [])
  | a :: rest =>
      '(w1, called) ← step props a w;
      '(w2, calls) ← run props rest w1;
      Some (w2, (option_list called ++ calls)%list)
  end.

(** The default values of the store after [actions]: those it had, unless a
    [Reset] with an argument replaced them. *)
Definition defaults_after (actions : list Action) (initial : FieldValues)
  : FieldValues :=
  foldl (fun defaults a =>
           match a with
           | Reset (Some values) => values
           | _ => defaults
           end) initial actions.

(** No [Reset] with an argument among the actions. *)
Definition resets_without_argument (actions : list Action) : Prop :=
  Forall (fun a => match a with Reset (Some _) => False | _ => True end) actions.

(** The world right after the first render, and the world after the first
    render and then [actions] ([unmounted] if a render throws on the way). *)
Definition first_world (props : GenericFormProps.t A) : World :=
  from_option snd unmounted (GenericForm props unmounted).

Definition world_after (props : GenericFormProps.t A) (actions : list Action)
  : World :=
  from_option fst unmounted (run props actions (first_world props)).

(** The store of the form in world [w]. *)
Definition store (w : World) : option Control :=
  l ← useForm_slot w;
  heap w !! l.

(** What an action makes of the form's store. *)
Definition after (props : GenericFormProps.t A) (a : Action) (c : Control)
  : Control :=
  match a with
  | Render => set_options (useFormProps props) c
  | Reset values => _reset values c
  | SetValue name value => _setValue name value c
  | Submit => (_handleSubmit c).1
  | Change name value => _onChange name value c
  end.

(** The get, set and reset operations of [handle] are those of the form
    whose store is at [l]. *)
Definition acts_on (l : nat) (handle : GenericFormRef.t) : Prop :=
  (forall heap,
      GenericFormRef.getValues handle heap = Some (getValues l heap))
  /\ (forall name value heap,
         GenericFormRef.setValue handle name value heap
         = Some (setValue l name value heap))
  /\ (forall values heap,
         GenericFormRef.reset handle values heap = Some (reset l values heap)).

(** What holds of a mounted form in every world: its hook owns a store, the
    store's options are those [GenericForm] passes, the ref holds a handle
    made by some render, and without a resolver there are no errors. *)
Definition consistent (props : GenericFormProps.t A) (w : World) (l : nat)
  (c : Control) : Prop :=
  useForm_slot w = Some l
  /\ heap w !! l = Some c
  /\ _options c = useFormProps props
  /\ (exists st, ref_current w = Some (createHandle (mkForm l st)))
  /\ (resolver (useFormProps props) = None -> RHF.errors (_formState c) = ∅).

(** The render environment [GenericForm] gives its children in world [w]. *)
Definition children_env (w : World) : option RenderEnv :=
  l ← useForm_slot w;
  _ ← heap w !! l;
  Some (mkEnv (heap w) (Some (mkForm l (useForm_formState w))) None).

End GenericForm.

(** ** A form to run: the README's quick start, two of its fields *)

Module Example.
Import Zod RHF React.

(** [name: z.string().min(2, 'Name is required')] and
    [agreeToTerms: z.boolean().refine(val => val === true, ...)]. *)
Definition userSchema : ZodSchema :=
  fun candidate =>
    let name_issues :=
      match get candidate "name" with
      | VString s =>
          if decide (2 <= String.length s) then []
          else [mkIssue "name" "too_small" "Name is required"]
      | _ => [mkIssue "name" "invalid_type" "Required"]
      end in
    let terms_issues :=
      match get candidate "agreeToTerms" with
      | VBool true => []
      | VBool false =>
          [mkIssue "agreeToTerms" "custom" "You must agree to the terms"]
      | _ => [mkIssue "agreeToTerms" "invalid_type" "Required"]
      end in
    match (name_issues ++ terms_issues)%list with
    | [] =>
        success {[ "name" := get candidate "name";
                   "agreeToTerms" := get candidate "agreeToTerms" ]}
    | issue :: issues => failure issue issues
    end.

Definition initialValues : FieldValues :=
  {[ "name" := VString ""; "agreeToTerms" := VBool false ]}.

Definition nameField : TextFieldProps.t :=
  TextFieldProps.mk
    (BaseFieldProps.mk "name" (Some "Name") None (Some true) None None)
    None None None None None.

Definition termsField : BaseFieldProps.t :=
  BaseFieldProps.mk "agreeToTerms" (Some "I agree to the terms") None
    (Some true) None None.

Definition submitButton : SubmitButtonProps.t :=
  SubmitButtonProps.mk None None None None None None.

(** The same path bound by a field with other props. *)
Definition disabledNameField : TextFieldProps.t :=
  TextFieldProps.mk
    (BaseFieldProps.mk "name" None (Some "Your name") None (Some true)
       (Some "w-64"))
    (Some TextFieldProps.email) (Some (callback 0)) None (Some true)
    (Some "h-8").

Definition departmentField : SelectFieldProps.t :=
  SelectFieldProps.mk
    (BaseFieldProps.mk "department" (Some "Department")
       (Some "Select department") (Some true) None None)
    [SelectOption.mk "engineering" "Engineering" None;
     SelectOption.mk "marketing" "Marketing" (Some true);
     SelectOption.mk "sales" "Sales" None].

(** Two stores that agree on [name] and differ elsewhere, and the render
    environments over them. *)
Definition store1 : Control :=
  createFormControl
    {| defaultValues :=
         {[ "name" := VString "Ann"; "agreeToTerms" := VBool false ]};
       resolver := None |}.

Definition store2 : Control :=
  createFormControl
    {| defaultValues :=
         {[ "name" := VString "Ann"; "agreeToTerms" := VBool true;
            "department" := VString "sales" ]};
       resolver := None |}.

Definition env_over (c : Control) : RenderEnv :=
  mkEnv {[ 0 := c ]} (Some (mkForm 0 initialFormState)) None.

(** [onSubmit] is the identity: what a call evaluates to is the data it was
    called with. *)
Definition props : GenericFormProps.t FieldValues :=
  GenericFormProps.mk (Some userSchema) initialValues id
    [TextField nameField;
     CheckboxField join_classes termsField;
     static (SubmitButton join_classes submitButton)]
    None.

(** The same form without a schema. *)
Definition props_without_schema : GenericFormProps.t FieldValues :=
  GenericFormProps.mk None initialValues id
    [TextField nameField;
     CheckboxField join_classes termsField;
     static (SubmitButton join_classes submitButton)]
    None.

End Example.

(** ** More to run the components on *)

Module Page.
Import RHF React.

(** A page that already holds the store of another form, before the form at
    hand is mounted. *)
Definition before_mount : World :=
  {| heap := {[ 0 := Example.store2 ]};
     useForm_slot := None;
     useForm_formState := initialFormState;
     handles := [] |}.

(** A required checkbox without a label. *)
Definition unlabelledTerms : BaseFieldProps.t :=
  BaseFieldProps.mk "agreeToTerms" None None (Some true) None None.

(** The leaves the example form is made of. *)
Definition leaves : list Leaf :=
  [field (text_field Example.nameField);
   field (checkbox_field Example.termsField);
   submit_button Example.submitButton].

End Page.

(** * Properties *)

Import Zod Resolvers RHF React Ui.

(** ** Reading trees and props *)

Lemma query_eq ty props children :
  query ty (createElement ty props children)
  = Some (createElement ty props children).
Proof. cbn [query]. destruct (decide (ty = ty)); [reflexivity | contradiction]. Qed.

Lemma query_ne ty ty' props children :
  ty' <> ty ->
  query ty (createElement ty' props children) = query_list ty children.
Proof.
  intros Hne. cbn [query]. destruct (decide (ty' = ty)); [contradiction |].
  induction children as [| e es IH]; cbn [query_list]; [reflexivity |].
  now rewrite <- IH.
Qed.

Lemma query_text ty s : query ty (text s) = None.
Proof. reflexivity. Qed.

Lemma query_nothing ty : query ty nothing = None.
Proof. reflexivity. Qed.

Lemma query_last_children ty ty' props children r :
  query_last_list ty children = Some r ->
  query_last ty (createElement ty' props children) = Some r.
Proof.
  intros H. cbn [query_last].
  replace ((fix query_from_end (es : list Element) : option Element :=
              match es with
              | [] => None
              | e' :: es' =>
                  match query_from_end es' with
                  | Some r => Some r
                  | None => query_last ty e'
                  end
              end) children) with (query_last_list ty children).
  - now rewrite H.
  - clear H. induction children as [| e es IH]; cbn [query_last_list];
      [reflexivity | now rewrite IH].
Qed.

Lemma query_last_leaf ty props children :
  query_last_list ty children = None ->
  query_last ty (createElement ty props children)
  = Some (createElement ty props children).
Proof.
  intros H. cbn [query_last].
  replace ((fix query_from_end (es : list Element) : option Element :=
              match es with
              | [] => None
              | e' :: es' =>
                  match query_from_end es' with
                  | Some r => Some r
                  | None => query_last ty e'
                  end
              end) children) with (query_last_list ty children).
  - rewrite H. destruct (decide (ty = ty)); [reflexivity | contradiction].
  - clear H. induction children as [| e es IH]; cbn [query_last_list];
      [reflexivity | now rewrite IH].
Qed.

Lemma append_empty_r (s : string) : s +:+ "" = s.
Proof.
  induction s as [| a s IH]; [reflexivity |].
  change (String a s +:+ "") with (String a (s +:+ "")). now rewrite IH.
Qed.

(** Walks [query] down a tree whose shape is known up to the target. *)
Ltac query_step :=
  repeat first
    [ rewrite query_eq
    | rewrite query_ne by discriminate
    | rewrite query_text
    | rewrite query_nothing
    | progress cbn [query_list and_string and_bool and_function] ].

(** Reads one key of a props object written as JSX attributes. *)
Ltac prop_lookup :=
  cbn [props_of jsx spread_field foldl fst snd];
  rewrite ?lookup_insert_ne by done;
  rewrite ?lookup_insert_eq.

(** ** The wrappers of [components/ui/form] *)

Lemma FormMessage_renders className env form name c :
  useFormContext env = Some form ->
  formFieldContext env = Some name ->
  env_heap env !! control form = Some c ->
  Ui.FormMessage className env
  = Some match RHF.errors (_formState c) !! name with
         | Some error =>
             createElement React.FormMessage
               (jsx ∅ [("className", opt_str className)])
               [text (error_message error)]
         | None => nothing
         end.
Proof.
  intros Hform Hname Hc. unfold Ui.FormMessage.
  rewrite Hform, Hname. cbn [mbind option_bind].
  rewrite Hc. cbn [mbind option_bind].
  now destruct (RHF.errors (_formState c) !! name).
Qed.

Lemma FormMessage_without_form className env :
  useFormContext env = None -> Ui.FormMessage className env = None.
Proof. intros H. unfold Ui.FormMessage. now rewrite H. Qed.

(** ** The field components *)

Section FieldProperties.
Variable cn : list (option string) -> string.

(** Unfolds a field rendered under a form provider whose store is [c]. *)
Ltac render_under Hform Hc :=
  unfold FormField; rewrite Hform; cbn [mbind option_bind];
  rewrite Hc; cbn [mbind option_bind];
  erewrite FormMessage_renders by (cbn; eauto);
  cbn [mbind option_bind].

(** The message slot is the last child: when it shows an error, it is the
    last [FormMessage] of the tree. *)
Ltac find_slot :=
  cbn [query_last_list];
  first [ rewrite query_last_leaf by reflexivity; reflexivity
        | erewrite query_last_children; [reflexivity | find_slot] ].

Ltac message_slot Herror :=
  unfold message_text; rewrite Herror;
  erewrite query_last_children; [| find_slot];
  cbn [fmap option_fmap option_map textContent]; now rewrite append_empty_r.

Lemma TextField_renders p env form c :
  useFormContext env = Some form ->
  env_heap env !! control form = Some c ->
  exists e,
    TextField p env = Some e
    /\ rendered_value (text_field p) e
       = Some (PVal (get (_formValues c)
                       (BaseFieldProps.name (TextFieldProps.base p))))
    /\ forall error,
         RHF.errors (_formState c)
           !! BaseFieldProps.name (TextFieldProps.base p) = Some error ->
         message_text e = Some (error_message error).
Proof.
  intros Hform Hc. unfold TextField. render_under Hform Hc.
  eexists; split; [reflexivity |]. split.
  - unfold rendered_value.
    destruct (BaseFieldProps.label (TextFieldProps.base p)) as [[| a s] |];
      destruct (BaseFieldProps.required (TextFieldProps.base p)) as [[|] |];
      cbn [default from_option id]; query_step; cbn [mbind option_bind];
      prop_lookup; reflexivity.
  - intros error Herror. message_slot Herror.
Qed.

Lemma SelectField_renders p env form c :
  useFormContext env = Some form ->
  env_heap env !! control form = Some c ->
  exists e,
    SelectField p env = Some e
    /\ rendered_value (select_field p) e
       = Some (PVal (get (_formValues c)
                       (BaseFieldProps.name (SelectFieldProps.base p))))
    /\ forall error,
         RHF.errors (_formState c)
           !! BaseFieldProps.name (SelectFieldProps.base p) = Some error ->
         message_text e = Some (error_message error).
Proof.
  intros Hform Hc. unfold SelectField. render_under Hform Hc.
  eexists; split; [reflexivity |]. split.
  - unfold rendered_value.
    destruct (BaseFieldProps.label (SelectFieldProps.base p)) as [[| a s] |];
      destruct (BaseFieldProps.required (SelectFieldProps.base p)) as [[|] |];
      cbn [default from_option id]; query_step; cbn [mbind option_bind];
      prop_lookup; reflexivity.
  - intros error Herror. message_slot Herror.
Qed.

Lemma CheckboxField_renders p env form c :
  useFormContext env = Some form ->
  env_heap env !! control form = Some c ->
  exists e,
    CheckboxField cn p env = Some e
    /\ rendered_value (checkbox_field p) e
       = Some (PVal (get (_formValues c) (BaseFieldProps.name p)))
    /\ forall error,
         RHF.errors (_formState c) !! BaseFieldProps.name p = Some error ->
         message_text e = Some (error_message error).
Proof.
  intros Hform Hc. unfold CheckboxField. render_under Hform Hc.
  eexists; split; [reflexivity |]. split.
  - unfold rendered_value. query_step. cbn [mbind option_bind].
    prop_lookup. reflexivity.
  - intros error Herror. message_slot Herror.
Qed.

Lemma render_field_under_form f env form c :
  useFormContext env = Some form ->
  env_heap env !! control form = Some c ->
  exists e,
    render_field cn f env = Some e
    /\ rendered_value f e = Some (PVal (get (_formValues c) (field_name f)))
    /\ forall error,
         RHF.errors (_formState c) !! field_name f = Some error ->
         message_text e = Some (error_message error).
Proof.
  destruct f as [p | p | p]; cbn [render_field field_name].
  - apply TextField_renders.
  - apply SelectField_renders.
  - apply CheckboxField_renders.
Qed.

Lemma render_field_without_form f env :
  useFormContext env = None -> render_field cn f env = None.
Proof.
  intros H.
  destruct f as [p | p | p]; cbn [render_field];
    unfold TextField, SelectField, CheckboxField; now rewrite H.
Qed.

(** The label of a field carries the required marker exactly when the field
    is required. *)
Lemma TextField_label p env form c a s :
  useFormContext env = Some form ->
  env_heap env !! control form = Some c ->
  BaseFieldProps.label (TextFieldProps.base p) = Some (String a s) ->
  exists e l,
    TextField p env = Some e /\ query FormLabel e = Some l
    /\ textContent l
       = String a s
         +:+ (if default false (BaseFieldProps.required (TextFieldProps.base p))
              then "*" else "").
Proof.
  intros Hform Hc Hlabel. unfold TextField. render_under Hform Hc.
  rewrite Hlabel. eexists _, _. split; [reflexivity |]. split.
  - query_step. reflexivity.
  - destruct (BaseFieldProps.required (TextFieldProps.base p)) as [[|] |];
      cbn [default from_option id and_bool textContent];
      now rewrite !append_empty_r.
Qed.

Lemma SelectField_label p env form c a s :
  useFormContext env = Some form ->
  env_heap env !! control form = Some c ->
  BaseFieldProps.label (SelectFieldProps.base p) = Some (String a s) ->
  exists e l,
    SelectField p env = Some e /\ query FormLabel e = Some l
    /\ textContent l
       = String a s
         +:+ (if default false (BaseFieldProps.required (SelectFieldProps.base p))
              then "*" else "").
Proof.
  intros Hform Hc Hlabel. unfold SelectField. render_under Hform Hc.
  rewrite Hlabel. eexists _, _. split; [reflexivity |]. split.
  - query_step. reflexivity.
  - destruct (BaseFieldProps.required (SelectFieldProps.base p)) as [[|] |];
      cbn [default from_option id and_bool textContent];
      now rewrite !append_empty_r.
Qed.

Lemma CheckboxField_label p env form c a s :
  useFormContext env = Some form ->
  env_heap env !! control form = Some c ->
  BaseFieldProps.label p = Some (String a s) ->
  exists e l,
    CheckboxField cn p env = Some e /\ query FormLabel e = Some l
    /\ textContent l
       = String a s
         +:+ (if default false (BaseFieldProps.required p) then "*" else "").
Proof.
  intros Hform Hc Hlabel. unfold CheckboxField. render_under Hform Hc.
  rewrite Hlabel. eexists _, _. split; [reflexivity |]. split.
  - query_step. reflexivity.
  - destruct (BaseFieldProps.required p) as [[|] |];
      cbn [default from_option id and_bool textContent];
      now rewrite !append_empty_r.
Qed.

(** The class of the text field's input is chosen by the [action] prop. *)
Lemma TextField_input_class p env form c :
  useFormContext env = Some form ->
  env_heap env !! control form = Some c ->
  exists e i,
    TextField p env = Some e /\ query Input e = Some i
    /\ props_of i !! "className"
       = Some (str ("w-full " +:+ interpolate (TextFieldProps.inputClass p)
                    +:+ " "
                    +:+ (if TextFieldProps.action p is Some _
                         then "pr-12" else ""))).
Proof.
  intros Hform Hc. unfold TextField. render_under Hform Hc.
  eexists _, _. split; [reflexivity |].
  destruct (BaseFieldProps.label (TextFieldProps.base p)) as [[| a s] |];
    destruct (BaseFieldProps.required (TextFieldProps.base p)) as [[|] |];
    cbn [default from_option id]; query_step;
    (split; [reflexivity | prop_lookup; reflexivity]).
Qed.

Lemma SubmitButton_class p :
  props_of (SubmitButton cn p) !! "className"
  = Some (str (cn [Some "transition-all duration-200";
                   Some match default SubmitButtonProps.full
                                (SubmitButtonProps.width p) with
                        | SubmitButtonProps.full => "w-full"
                        | SubmitButtonProps.auto => "w-auto"
                        end;
                   SubmitButtonProps.className p])).
Proof. unfold SubmitButton. prop_lookup. reflexivity. Qed.

End FieldProperties.

(** ** The resolver *)

Lemma parseErrorSchema_keeps issues acc p e :
  acc !! p = Some e -> parseErrorSchema issues acc !! p = Some e.
Proof.
  revert acc. induction issues as [| issue rest IH]; intros acc Hp;
    cbn [parseErrorSchema]; [exact Hp |].
  destruct (acc !! path issue) eqn:Hissue; [now apply IH |].
  apply IH. rewrite lookup_insert_ne; [exact Hp | congruence].
Qed.

Lemma parseErrorSchema_lookup issues acc p :
  acc !! p = None ->
  parseErrorSchema issues acc !! p = field_error <$> issue_at p issues.
Proof.
  revert acc. induction issues as [| issue rest IH]; intros acc Hp;
    cbn [parseErrorSchema issue_at List.find]; [now rewrite Hp |].
  fold (issue_at p rest).
  destruct (decide (path issue = p)) as [-> | Hne].
  - rewrite Hp, bool_decide_eq_true_2 by reflexivity.
    apply parseErrorSchema_keeps. now rewrite lookup_insert_eq.
  - rewrite bool_decide_eq_false_2 by exact Hne.
    destruct (acc !! path issue); [now apply IH |].
    apply IH. now rewrite lookup_insert_ne.
Qed.

Lemma parseErrorSchema_nonempty issue issues :
  parseErrorSchema (issue :: issues) ∅ <> ∅.
Proof.
  intros Hempty.
  assert (H : parseErrorSchema (issue :: issues) ∅ !! path issue
              = Some (field_error issue)).
  { rewrite parseErrorSchema_lookup by apply lookup_empty.
    cbn [issue_at List.find]. now rewrite bool_decide_eq_true_2. }
  rewrite Hempty, lookup_empty in H. discriminate.
Qed.

(** ** The handle *)

Lemma createHandle_acts_on form : acts_on (control form) (createHandle form).
Proof. repeat split. Qed.

Lemma createHandle_keys form :
  GenericFormRef.keys (createHandle form)
  = ["getValues"; "reset"; "setValue"; "formState"; "control"; "form"].
Proof. reflexivity. Qed.

Lemma createHandle_formState form :
  GenericFormRef.formState (createHandle form) = Some (formState form).
Proof. reflexivity. Qed.

(** ** One mounted form *)

Lemma heap_alter (f : Control -> Control) (h : Heap) l c :
  h !! l = Some c -> alter f l h !! l = Some (f c).
Proof. intros H. now rewrite lookup_alter_eq, H. Qed.

Section LifeCycle.
Context {A : Type}.
Implicit Types (props : GenericFormProps.t A) (w : World) (c : Control).

Lemma first_render props e w :
  GenericForm props unmounted = Some (e, w) ->
  useForm_slot w = Some 0
  /\ heap w !! 0 = Some (createFormControl (useFormProps props))
  /\ ref_current w = Some (createHandle (mkForm 0 initialFormState)).
Proof.
  unfold GenericForm, unmounted. cbn [useForm useForm_slot heap].
  destruct (mapM _ _); [| discriminate]. cbn [mbind option_bind].
  intros [= <- <-]. cbn [useForm_slot heap].
  change (fresh (dom (∅ : Heap))) with 0.
  split; [reflexivity |]. split; [apply lookup_insert_eq | reflexivity].
Qed.

Lemma first_render_consistent props e w :
  GenericForm props unmounted = Some (e, w) ->
  consistent props w 0 (createFormControl (useFormProps props)).
Proof.
  intros H. destruct (first_render _ _ _ H) as (Hslot & Hstore & Href).
  repeat split; eauto.
Qed.

(** One step of a mounted form, read off the store. *)
Lemma step_store props a w w' called l c st :
  useForm_slot w = Some l ->
  heap w !! l = Some c ->
  ref_current w = Some (createHandle (mkForm l st)) ->
  step props a w = Some (w', called) ->
  useForm_slot w' = Some l
  /\ heap w' !! l = Some (after props a c)
  /\ ref_current w'
     = Some (createHandle
               (mkForm l match a with
                         | Render => useForm_formState w
                         | _ => st
                         end))
  /\ called = match a with
              | Submit => GenericFormProps.onSubmit props <$> (_handleSubmit c).2
              | _ => None
              end.
Proof.
  intros Hslot Hc Href Hstep. destruct a as [| values | name value | | name value];
    cbn [step after] in *.
  - unfold GenericForm in Hstep. rewrite Hslot in Hstep. cbn [useForm] in Hstep.
    destruct (mapM _ _); [| discriminate]. cbn [mbind option_bind] in Hstep.
    injection Hstep as <- <-. unfold ref_current. cbn [useForm_slot heap handles].
    rewrite (heap_alter (set_options _) _ _ _ Hc), last_snoc.
    repeat split.
  - rewrite Href in Hstep. cbn [mbind option_bind] in Hstep.
    change (GenericFormRef.reset (createHandle (mkForm l st)) values (heap w))
      with (Some (reset l values (heap w))) in Hstep.
    cbn [mbind option_bind] in Hstep. injection Hstep as <- <-.
    cbn [with_heap useForm_slot heap]. unfold reset.
    rewrite (heap_alter (_reset _) _ _ _ Hc). repeat split; assumption.
  - rewrite Href in Hstep. cbn [mbind option_bind] in Hstep.
    change (GenericFormRef.setValue (createHandle (mkForm l st)) name value
              (heap w))
      with (Some (setValue l name value (heap w))) in Hstep.
    cbn [mbind option_bind] in Hstep. injection Hstep as <- <-.
    cbn [with_heap useForm_slot heap]. unfold setValue.
    rewrite (heap_alter (_setValue _ _) _ _ _ Hc). repeat split; assumption.
  - unfold submit, handleSubmit in Hstep. rewrite Hslot, Hc in Hstep.
    destruct (_handleSubmit c) as [c' data]. injection Hstep as <- <-.
    cbn [with_heap useForm_slot heap fst snd].
    rewrite lookup_insert_eq. repeat split; assumption.
  - rewrite Hslot in Hstep. injection Hstep as <- <-.
    cbn [with_heap useForm_slot heap]. unfold RHF.onChange.
    rewrite (heap_alter (_onChange _ _) _ _ _ Hc). repeat split; assumption.
Qed.

(** One step of a mounted form, read off the hook's copy of the form state
    and the handle objects: only a render makes a handle, and no step writes
    the copy. *)
Lemma step_handles props a w w' called l st :
  useForm_slot w = Some l ->
  ref_current w = Some (createHandle (mkForm l st)) ->
  step props a w = Some (w', called) ->
  useForm_formState w' = useForm_formState w
  /\ handles w'
     = match a with
       | Render =>
           (handles w ++ [createHandle (mkForm l (useForm_formState w))])%list
       | _ => handles w
       end.
Proof.
  intros Hslot Href Hstep.
  destruct a as [| values | name value | | name value]; cbn [step] in Hstep.
  - unfold GenericForm in Hstep. rewrite Hslot in Hstep. cbn [useForm] in Hstep.
    destruct (mapM _ _); [| discriminate]. cbn [mbind option_bind] in Hstep.
    now injection Hstep as <- <-.
  - rewrite Href in Hstep.
    change (GenericFormRef.reset (createHandle (mkForm l st)) values (heap w))
      with (Some (reset l values (heap w))) in Hstep.
    cbn [mbind option_bind] in Hstep. now injection Hstep as <- <-.
  - rewrite Href in Hstep.
    change (GenericFormRef.setValue (createHandle (mkForm l st)) name value
              (heap w))
      with (Some (setValue l name value (heap w))) in Hstep.
    cbn [mbind option_bind] in Hstep. now injection Hstep as <- <-.
  - unfold submit in Hstep. rewrite Hslot in Hstep.
    destruct (handleSubmit _ _ _) as [heap' data].
    now injection Hstep as <- <-.
  - rewrite Hslot in Hstep. now injection Hstep as <- <-.
Qed.

Lemma after_options props a c :
  _options c = useFormProps props -> _options (after props a c) = useFormProps props.
Proof.
  intros H. destruct a; cbn [after]; try assumption; try reflexivity.
  - unfold _handleSubmit. now destruct (_executeValidation c).
  - unfold _onChange. now destruct (isSubmitted (_formState c)).
Qed.

Lemma after_no_errors props a c :
  _options c = useFormProps props ->
  resolver (useFormProps props) = None ->
  RHF.errors (_formState c) = ∅ ->
  RHF.errors (_formState (after props a c)) = ∅.
Proof.
  intros Hopts Hnone Herrors. destruct a; cbn [after]; try assumption;
    try reflexivity.
  - unfold _handleSubmit, _executeValidation. rewrite Hopts, Hnone.
    cbn. assumption.
  - unfold _onChange. destruct (isSubmitted (_formState c)); [| assumption].
    rewrite Hopts, Hnone. cbn. rewrite Herrors. apply delete_empty.
Qed.

Lemma step_consistent props a w w' called l c :
  consistent props w l c ->
  step props a w = Some (w', called) ->
  consistent props w' l (after props a c).
Proof.
  intros (Hslot & Hc & Hopts & [st Href] & Herrors) Hstep.
  destruct (step_store _ _ _ _ _ _ _ _ Hslot Hc Href Hstep)
    as (Hslot' & Hc' & Href' & _).
  repeat split; eauto using after_options, after_no_errors.
Qed.

Lemma mounted_consistent props w :
  mounted props w -> exists l c, consistent props w l c.
Proof.
  induction 1 as [e w H | a w w' called _ (l & c & IH) Hstep].
  - eauto using first_render_consistent.
  - eauto using step_consistent.
Qed.

(** Every handle made so far was made by a render of this form, over its
    one store. *)
Lemma mounted_handles props w :
  mounted props w ->
  exists l,
    useForm_slot w = Some l
    /\ Forall (fun handle => exists st, handle = createHandle (mkForm l st))
         (handles w).
Proof.
  induction 1 as [e w H | a w w' called Hw (l & Hslot & IH) Hstep].
  - exists 0. destruct (first_render _ _ _ H) as (Hslot & _).
    split; [assumption |].
    unfold GenericForm in H. cbn [unmounted useForm useForm_slot heap] in H.
    destruct (mapM _ _); [| discriminate]. cbn [mbind option_bind] in H.
    injection H as <- <-. cbn [handles unmounted app].
    repeat constructor. now eexists.
  - destruct (mounted_consistent _ _ Hw) as (l' & c & Hslot' & Hc & _ & [st Href] & _).
    rewrite Hslot in Hslot'. injection Hslot' as <-.
    destruct (step_store _ _ _ _ _ _ _ _ Hslot Hc Href Hstep) as (Hslot1 & _).
    destruct (step_handles _ _ _ _ _ _ _ Hslot Href Hstep) as (_ & Hhandles).
    exists l. split; [assumption |]. rewrite Hhandles.
    destruct a; try assumption.
    apply Forall_app. split; [assumption |]. repeat constructor. now eexists.
Qed.

Lemma ref_address_handles w :
  ref_address w
  = match handles w with
    | [] => None
    | _ => Some (Nat.pred (length (handles w)))
    end.
Proof. unfold ref_address. now destruct (handles w). Qed.

(** Every action but a render goes through, whatever the world. *)
Lemma step_total props a w l c :
  consistent props w l c -> a <> Render ->
  exists w' called, step props a w = Some (w', called).
Proof.
  intros (Hslot & Hc & _ & [st Href] & _) Ha.
  destruct a; [contradiction | | | |]; cbn [step];
    rewrite ?Href, ?Hslot; try destruct (submit props w);
    eexists _, _; reflexivity.
Qed.

(** The default values of the store follow the resets that had an argument. *)
Lemma after_defaultValues props a c :
  _defaultValues (after props a c)
  = defaults_after [a] (_defaultValues c).
Proof.
  destruct a as [| [values |] | | |]; cbn [after defaults_after foldl];
    try reflexivity.
  - unfold _handleSubmit. now destruct (_executeValidation c).
  - unfold _onChange. now destruct (isSubmitted (_formState c)).
Qed.

Lemma run_consistent props actions w w' calls l c :
  consistent props w l c ->
  run props actions w = Some (w', calls) ->
  exists c',
    consistent props w' l c'
    /\ _defaultValues c' = defaults_after actions (_defaultValues c).
Proof.
  revert w c calls. induction actions as [| a rest IH]; intros w c calls Hw Hrun;
    cbn [run] in Hrun.
  - injection Hrun as <- <-. eauto.
  - destruct (step props a w) as [[w1 called] |] eqn:Hstep; [| discriminate].
    cbn [mbind option_bind] in Hrun.
    destruct (run props rest w1) as [[w2 calls'] |] eqn:Hrest; [| discriminate].
    cbn [mbind option_bind] in Hrun. injection Hrun as <- <-.
    destruct (IH _ _ _ (step_consistent _ _ _ _ _ _ _ Hw Hstep) Hrest)
      as (c' & Hw' & Hdefaults).
    exists c'. split; [assumption |].
    rewrite Hdefaults, after_defaultValues. reflexivity.
Qed.

Lemma run_mounted props actions w w' calls :
  mounted props w -> run props actions w = Some (w', calls) -> mounted props w'.
Proof.
  revert w calls. induction actions as [| a rest IH]; intros w calls Hw Hrun;
    cbn [run] in Hrun.
  - now injection Hrun as <- <-.
  - destruct (step props a w) as [[w1 called] |] eqn:Hstep; [| discriminate].
    cbn [mbind option_bind] in Hrun.
    destruct (run props rest w1) as [[w2 calls'] |] eqn:Hrest; [| discriminate].
    cbn [mbind option_bind] in Hrun. injection Hrun as <- <-.
    eapply IH; [| exact Hrest]. eapply mounted_step; eassumption.
Qed.

Lemma defaults_after_without_argument actions initial :
  resets_without_argument actions -> defaults_after actions initial = initial.
Proof.
  unfold defaults_after. intros H. revert initial.
  induction H as [| a rest Ha _ IH]; intros initial; cbn [foldl];
    [reflexivity |].
  rewrite IH. now destruct a as [| [values |] | | |].
Qed.

End LifeCycle.

(** * The specification's claims *)

(** ** Fields and form state *)

(** C1: the value a field component shows (the input's value of TextField,
    the select's value of SelectField, the checkbox's checked state of
    CheckboxField) is a function of the form-state snapshot at the field's
    path and of nothing else: two renders, whatever their other props and
    whatever else the two snapshots hold, show the same value when the
    snapshots agree at the path, and that value is the snapshot's. *)
Theorem rendered_value_function_of_snapshot
  (cn : list (option string) -> string) (f1 f2 : Field)
  (env1 env2 : RenderEnv) (form1 form2 : UseFormReturn) (c1 c2 : Control) :
  field_name f1 = field_name f2 ->
  useFormContext env1 = Some form1 ->
  env_heap env1 !! control form1 = Some c1 ->
  useFormContext env2 = Some form2 ->
  env_heap env2 !! control form2 = Some c2 ->
  get (_formValues c1) (field_name f1) = get (_formValues c2) (field_name f2) ->
  exists e1 e2 v,
    render_field cn f1 env1 = Some e1
    /\ render_field cn f2 env2 = Some e2
    /\ rendered_value f1 e1 = Some v
    /\ rendered_value f2 e2 = Some v
    /\ v = PVal (get (_formValues c1) (field_name f1)).
Proof.
  intros Hname Hform1 Hc1 Hform2 Hc2 Hsame.
  destruct (render_field_under_form cn f1 _ _ _ Hform1 Hc1) as (e1 & H1 & V1 & _).
  destruct (render_field_under_form cn f2 _ _ _ Hform2 Hc2) as (e2 & H2 & V2 & _).
  exists e1, e2, (PVal (get (_formValues c1) (field_name f1))).
  repeat split; try assumption. now rewrite V2, <- Hsame.
Qed.

(** C9: SubmitButton renders a button of type submit; it is disabled exactly
    when isLoading is true or the disabled prop is true; its text is
    loadingLabel (by default 'Submitting...') when isLoading is true and
    label (by default 'Submit') otherwise. *)
Theorem SubmitButton_renders (cn : list (option string) -> string)
  (p : SubmitButtonProps.t) :
  type_of (SubmitButton cn p) = Some Button
  /\ props_of (SubmitButton cn p) !! "type" = Some (str "submit")
  /\ (exists b,
         props_of (SubmitButton cn p) !! "disabled" = Some (boolean b)
         /\ (b = true <->
             SubmitButtonProps.isLoading p = Some true
             \/ SubmitButtonProps.disabled p = Some true))
  /\ textContent (SubmitButton cn p)
     = match SubmitButtonProps.isLoading p with
       | Some true => default "Submitting..." (SubmitButtonProps.loadingLabel p)
       | _ => default "Submit" (SubmitButtonProps.label p)
       end.
Proof.
  split; [reflexivity |]. split; [unfold SubmitButton; prop_lookup; reflexivity |].
  split.
  - eexists. split; [unfold SubmitButton; prop_lookup; reflexivity |].
    destruct (SubmitButtonProps.isLoading p) as [[|] |],
      (SubmitButtonProps.disabled p) as [[|] |]; cbn; intuition congruence.
  - unfold SubmitButton.
    destruct (SubmitButtonProps.isLoading p) as [[|] |];
      cbn [default from_option id textContent]; now rewrite ?append_empty_r.
Qed.

(** C10: SelectField renders one selectable item per element of its options
    array, in the order of the array, each carrying the option's value, its
    display text and its disabled flag. *)
Theorem SelectField_items (p : SelectFieldProps.t) (env : RenderEnv)
  (form : UseFormReturn) (c : Control) :
  useFormContext env = Some form ->
  env_heap env !! control form = Some c ->
  exists e content,
    SelectField p env = Some e
    /\ query SelectContent e = Some content
    /\ length (children_of content) = length (SelectFieldProps.options p)
    /\ forall (i : nat) (option : SelectOption.t),
         SelectFieldProps.options p !! i = Some option ->
         exists item,
           children_of content !! i = Some item
           /\ type_of item = Some SelectItem
           /\ props_of item !! "value" = Some (str (SelectOption.value option))
           /\ props_of item !! "disabled"
              = Some (opt_bool (SelectOption.disabled option))
           /\ textContent item = SelectOption.text option.
Proof.
  intros Hform Hc. unfold SelectField.
  unfold FormField; rewrite Hform; cbn [mbind option_bind];
    rewrite Hc; cbn [mbind option_bind].
  erewrite FormMessage_renders by (cbn; eauto). cbn [mbind option_bind].
  eexists _, _. split; [reflexivity |]. split.
  { destruct (BaseFieldProps.label (SelectFieldProps.base p)) as [[| a s] |];
      destruct (BaseFieldProps.required (SelectFieldProps.base p)) as [[|] |];
      cbn [default from_option id]; query_step; reflexivity. }
  cbn [children_of]. split; [apply length_map |].
  induction (SelectFieldProps.options p) as [| o rest IH]; intros i option Hi;
    [discriminate |].
  destruct i as [| i]; cbn [map].
  - injection Hi as <-. eexists. split; [reflexivity |].
    split; [reflexivity |]. split; [prop_lookup; reflexivity |].
    split; [prop_lookup; reflexivity |].
    cbn [textContent]. apply append_empty_r.
  - apply (IH i option Hi).
Qed.

Lemma rendered_value_function_of_snapshot_witness :
  exists e1 e2 v,
    render_field join_classes (text_field Example.nameField)
      (Example.env_over Example.store1) = Some e1
    /\ render_field join_classes (text_field Example.disabledNameField)
         (Example.env_over Example.store2) = Some e2
    /\ rendered_value (text_field Example.nameField) e1 = Some v
    /\ rendered_value (text_field Example.disabledNameField) e2 = Some v
    /\ v = PVal (get (_formValues Example.store1) "name").
Proof.
  apply (rendered_value_function_of_snapshot join_classes
           (text_field Example.nameField)
           (text_field Example.disabledNameField)
           (Example.env_over Example.store1) (Example.env_over Example.store2)
           (mkForm 0 initialFormState) (mkForm 0 initialFormState)
           Example.store1 Example.store2);
    vm_compute; reflexivity.
Defined.

Lemma SelectField_items_witness :
  exists e content,
    SelectField Example.departmentField (Example.env_over Example.store2)
    = Some e
    /\ query SelectContent e = Some content
    /\ length (children_of content) = 3
    /\ forall (i : nat) (option : SelectOption.t),
         SelectFieldProps.options Example.departmentField !! i = Some option ->
         exists item,
           children_of content !! i = Some item
           /\ type_of item = Some SelectItem
           /\ props_of item !! "value" = Some (str (SelectOption.value option))
           /\ props_of item !! "disabled"
              = Some (opt_bool (SelectOption.disabled option))
           /\ textContent item = SelectOption.text option.
Proof.
  apply (SelectField_items Example.departmentField
           (Example.env_over Example.store2) (mkForm 0 initialFormState)
           Example.store2);
    vm_compute; reflexivity.
Defined.

(** C3, as stated, fails: it would have what each of the four leaves renders
    vary with the form context, and the submit button renders the same under
    every context, or none. *)
Lemma SubmitButton_reads_no_context :
  ~ (forall (cn : list (option string) -> string) (leaf : Leaf),
        exists env env' : RenderEnv,
          render_leaf cn leaf env <> render_leaf cn leaf env').
Proof.
  intros H.
  destruct (H join_classes (submit_button Example.submitButton))
    as (env & env' & Hne).
  now apply Hne.
Qed.

(** C3, amended: the text, select and checkbox fields read their field state
    from the shared form context: without a form provider they do not
    render, and under one they show the store's value at their path.  The
    submit button reads no context: what it renders is decided by its props
    alone.  The markup is styled conditionally: the text field's input class
    depends on whether an action is given, the submit button's class on its
    width, and a labelled field carries the required marker exactly when it
    is required. *)
Theorem leaves_and_form_context (cn : list (option string) -> string) :
  (forall (f : Field) (env : RenderEnv),
      useFormContext env = None -> render_leaf cn (field f) env = None)
  /\ (forall (f : Field) (env : RenderEnv) (form : UseFormReturn) (c : Control),
         useFormContext env = Some form ->
         env_heap env !! control form = Some c ->
         exists e,
           render_leaf cn (field f) env = Some e
           /\ rendered_value f e
              = Some (PVal (get (_formValues c) (field_name f))))
  /\ (forall (p : SubmitButtonProps.t) (env : RenderEnv),
         render_leaf cn (submit_button p) env = Some (SubmitButton cn p))
  /\ (forall (p : TextFieldProps.t) (env : RenderEnv) (form : UseFormReturn)
        (c : Control),
         useFormContext env = Some form ->
         env_heap env !! control form = Some c ->
         exists e i,
           render_leaf cn (field (text_field p)) env = Some e
           /\ query Input e = Some i
           /\ props_of i !! "className"
              = Some (str ("w-full " +:+ interpolate (TextFieldProps.inputClass p)
                           +:+ " "
                           +:+ (if TextFieldProps.action p is Some _
                                then "pr-12" else ""))))
  /\ (forall p : SubmitButtonProps.t,
         props_of (SubmitButton cn p) !! "className"
         = Some (str (cn [Some "transition-all duration-200";
                          Some match default SubmitButtonProps.full
                                       (SubmitButtonProps.width p) with
                               | SubmitButtonProps.full => "w-full"
                               | SubmitButtonProps.auto => "w-auto"
                               end;
                          SubmitButtonProps.className p])))
  /\ (forall (f : Field) (env : RenderEnv) (form : UseFormReturn) (c : Control)
        (a : Ascii.ascii) (s : string),
         useFormContext env = Some form ->
         env_heap env !! control form = Some c ->
         BaseFieldProps.label (field_base f) = Some (String a s) ->
         exists e l,
           render_leaf cn (field f) env = Some e
           /\ query FormLabel e = Some l
           /\ textContent l
              = String a s
                +:+ (if default false (BaseFieldProps.required (field_base f))
                     then "*" else "")).
Proof.
  split; [intros f env H; now apply render_field_without_form |].
  split.
  { intros f env form c Hform Hc.
    destruct (render_field_under_form cn f _ _ _ Hform Hc) as (e & H & V & _).
    eauto. }
  split; [reflexivity |].
  split; [intros p env form c; apply TextField_input_class |].
  split; [apply SubmitButton_class |].
  intros [p | p | p] env form c a s; cbn [render_leaf render_field field_base].
  - apply TextField_label.
  - apply SelectField_label.
  - apply CheckboxField_label.
Qed.

Lemma leaves_and_form_context_witness :
  render_leaf join_classes (field (checkbox_field Example.termsField))
    (mkEnv ∅ None None) = None
  /\ (exists e,
         render_leaf join_classes (field (checkbox_field Example.termsField))
           (Example.env_over Example.store2) = Some e
         /\ rendered_value (checkbox_field Example.termsField) e
            = Some (PVal (VBool true)))
  /\ exists e l,
       render_leaf join_classes (field (checkbox_field Example.termsField))
         (Example.env_over Example.store2) = Some e
       /\ query FormLabel e = Some l
       /\ textContent l = "I agree to the terms*".
Proof.
  destruct (leaves_and_form_context join_classes)
    as (Hnone & Hvalue & _ & _ & _ & Hlabel).
  split; [apply Hnone; reflexivity |]. split.
  - apply (Hvalue (checkbox_field Example.termsField)
             (Example.env_over Example.store2) (mkForm 0 initialFormState)
             Example.store2); vm_compute; reflexivity.
  - apply (Hlabel (checkbox_field Example.termsField)
             (Example.env_over Example.store2) (mkForm 0 initialFormState)
             Example.store2 "I"%char " agree to the terms"%string);
      vm_compute; reflexivity.
Defined.

(** ** The form and its handle *)

Section FormProperties.
Context {A : Type}.
Implicit Types (props : GenericFormProps.t A) (w : World) (c : Control).

Lemma mounted_store props w :
  mounted props w ->
  exists l c, consistent props w l c /\ store w = Some c.
Proof.
  intros H. destruct (mounted_consistent _ _ H) as (l & c & Hw).
  exists l, c. split; [assumption |].
  destruct Hw as (Hslot & Hc & _). unfold store. now rewrite Hslot.
Qed.

(** A form whose children are leaves of this library renders in every world
    it goes through, and at first. *)
Lemma leaves_render cn (leaves : list Leaf) env form c :
  useFormContext env = Some form ->
  env_heap env !! control form = Some c ->
  exists es,
    mapM (fun child : Component => child env) (map (render_leaf cn) leaves)
    = Some es.
Proof.
  intros Hform Hc. induction leaves as [| leaf rest (es & IH)];
    [now exists [] |].
  cbn [map mapM]. rewrite IH.
  destruct leaf as [f | p]; cbn [render_leaf].
  - destruct (render_field_under_form cn f _ _ _ Hform Hc) as (e & -> & _).
    now eexists.
  - now eexists.
Qed.

Lemma GenericForm_renders cn leaves props w :
  GenericFormProps.children props = map (render_leaf cn) leaves ->
  w = unmounted \/ (exists l c, consistent props w l c) ->
  exists e w', GenericForm props w = Some (e, w').
Proof.
  intros Hchildren Hw. unfold GenericForm. rewrite Hchildren.
  destruct Hw as [-> | (l & c & Hslot & Hc & _)].
  - cbn [useForm unmounted useForm_slot heap].
    destruct (leaves_render cn leaves
                (mkEnv (<[fresh (dom (∅ : Heap)) :=
                           createFormControl (useFormProps props)]> ∅)
                   (Some (mkForm (fresh (dom (∅ : Heap))) initialFormState))
                   None)
                (mkForm (fresh (dom (∅ : Heap))) initialFormState)
                (createFormControl (useFormProps props)))
      as (es & ->); [reflexivity | apply lookup_insert_eq |].
    now eexists _, _.
  - rewrite Hslot. cbn [useForm].
    edestruct (leaves_render cn leaves) as (es & ->);
      [reflexivity | cbn [env_heap control];
                     apply (heap_alter (set_options _) _ _ _ Hc) |].
    now eexists _, _.
Qed.

Lemma useFormProps_forwards props :
  useFormProps props
  = {| defaultValues := GenericFormProps.initialValues props;
       resolver := zodResolver <$> GenericFormProps.schema props |}.
Proof. unfold useFormProps. now destruct (GenericFormProps.schema props). Qed.

(** C2, amended: GenericForm forwards its initialValues to the form-state
    hook as the default values and its schema as the resolver made of it (no
    resolver without a schema): the store is created from them at the first
    render and keeps them as its options.  The handle it exposes through ref
    provides the operations to get the current values, reset the form and
    set a field's value, and the form state to read, and besides these the
    form's control and the whole form object: six members in all. *)
Theorem GenericForm_forwards_and_exposes props w :
  mounted props w ->
  exists l c handle st,
    useForm_slot w = Some l
    /\ heap w !! l = Some c
    /\ _options c
       = {| defaultValues := GenericFormProps.initialValues props;
            resolver := zodResolver <$> GenericFormProps.schema props |}
    /\ (forall e,
           GenericForm props unmounted = Some (e, w) ->
           c = createFormControl
                 {| defaultValues := GenericFormProps.initialValues props;
                    resolver := zodResolver <$> GenericFormProps.schema props |})
    /\ ref_current w = Some handle
    /\ GenericFormRef.keys handle
       = ["getValues"; "reset"; "setValue"; "formState"; "control"; "form"]
    /\ acts_on l handle
    /\ GenericFormRef.formState handle = Some st
    /\ GenericFormRef.member "control" handle = Some (GenericFormRef.control_ l)
    /\ GenericFormRef.member "form" handle
       = Some (GenericFormRef.form_ (mkForm l st)).
Proof.
  intros Hw.
  destruct (mounted_consistent _ _ Hw) as (l & c & Hslot & Hc & Hopts & [st Href] & _).
  exists l, c, (createHandle (mkForm l st)), st.
  rewrite <- useFormProps_forwards.
  split; [assumption |]. split; [assumption |]. split; [assumption |].
  split.
  { intros e Hfirst. destruct (first_render _ _ _ Hfirst) as (Hslot0 & Hc0 & _).
    rewrite Hslot in Hslot0. injection Hslot0 as ->.
    rewrite Hc in Hc0. now injection Hc0. }
  split; [assumption |]. repeat split.
Qed.

(** C4, amended: invoking the handle's reset with no argument goes through
    and restores the form's values to the form's current default values.
    These are the initialValues supplied to GenericForm for as long as reset
    has only been called without an argument; a reset with an argument makes
    that argument the default values from then on. *)
Theorem reset_restores_default_values props e w0 actions w calls :
  GenericForm props unmounted = Some (e, w0) ->
  run props actions w0 = Some (w, calls) ->
  exists w' handle,
    step props (Reset None) w = Some (w', None)
    /\ ref_current w' = Some handle
    /\ GenericFormRef.getValues handle (heap w')
       = Some (defaults_after actions (GenericFormProps.initialValues props))
    /\ (resets_without_argument actions ->
        GenericFormRef.getValues handle (heap w')
        = Some (GenericFormProps.initialValues props)).
Proof.
  intros Hfirst Hrun.
  destruct (run_consistent _ _ _ _ _ _ _
              (first_render_consistent _ _ _ Hfirst) Hrun)
    as (c & Hw & Hdefaults).
  destruct (step_total props (Reset None) w 0 c Hw ltac:(discriminate))
    as (w' & called & Hstep).
  destruct Hw as (Hslot & Hc & _ & [st Href] & _).
  destruct (step_store _ _ _ _ _ _ _ _ Hslot Hc Href Hstep)
    as (_ & Hc' & Href' & ->).
  exists w', (createHandle (mkForm 0 st)).
  split; [assumption |]. split; [assumption |].
  assert (Hvalues : GenericFormRef.getValues (createHandle (mkForm 0 st)) (heap w')
                    = Some (defaults_after actions
                              (GenericFormProps.initialValues props))).
  { change (GenericFormRef.getValues (createHandle (mkForm 0 st)) (heap w'))
      with (Some (getValues 0 (heap w'))).
    unfold getValues. rewrite Hc'. cbn. now rewrite Hdefaults. }
  split; [assumption |].
  intros Hno. now rewrite Hvalues, defaults_after_without_argument.
Qed.

(** C5: on submission with a schema, onSubmit is invoked only when the
    schema accepts the form's current values, and then with the data the
    schema accepted; when the schema rejects them, onSubmit is not called. *)
Theorem onSubmit_called_iff_schema_accepts props schema w :
  mounted props w ->
  GenericFormProps.schema props = Some schema ->
  exists c,
    store w = Some c
    /\ (submit props w).2
       = match schema (_formValues c) with
         | success data => Some (GenericFormProps.onSubmit props data)
         | failure _ _ => None
         end.
Proof.
  intros Hw Hschema.
  destruct (mounted_store _ _ Hw) as (l & c & (Hslot & Hc & Hopts & _) & Hstore).
  exists c. split; [assumption |].
  unfold submit, handleSubmit. rewrite Hslot, Hc.
  unfold _handleSubmit, _executeValidation.
  rewrite Hopts. unfold useFormProps. rewrite Hschema.
  cbn [resolver]. unfold zodResolver.
  destruct (schema (_formValues c)) as [data | issue issues];
    cbn [Resolvers.errors Resolvers.values snd].
  - now rewrite bool_decide_eq_true_2.
  - now rewrite bool_decide_eq_false_2 by apply parseErrorSchema_nonempty.
Qed.

(** C8: the schema prop is optional: without a schema no resolver is
    installed, and submission invokes onSubmit with the form's current
    values, with no schema validation. *)
Theorem no_schema_no_validation props w :
  mounted props w ->
  GenericFormProps.schema props = None ->
  exists c,
    store w = Some c
    /\ resolver (_options c) = None
    /\ (submit props w).2
       = Some (GenericFormProps.onSubmit props (_formValues c)).
Proof.
  intros Hw Hschema.
  destruct (mounted_store _ _ Hw)
    as (l & c & (Hslot & Hc & Hopts & _ & Herrors) & Hstore).
  assert (Hnone : resolver (useFormProps props) = None)
    by (unfold useFormProps; now rewrite Hschema).
  exists c. split; [assumption |]. split; [now rewrite Hopts |].
  unfold submit, handleSubmit. rewrite Hslot, Hc.
  unfold _handleSubmit, _executeValidation. rewrite Hopts, Hnone.
  rewrite (Herrors Hnone). cbn. reflexivity.
Qed.

(** The environment [GenericForm] renders its children in is [children_env]
    of the world the render leaves. *)
Lemma children_env_consistent props w l c :
  consistent props w l c ->
  children_env w
  = Some (mkEnv (heap w) (Some (mkForm l (useForm_formState w))) None).
Proof.
  intros (Hslot & Hc & _). unfold children_env.
  rewrite Hslot. cbn [mbind option_bind]. now rewrite Hc.
Qed.

Lemma GenericForm_children_env props w e w' :
  w = unmounted \/ (exists l c, consistent props w l c) ->
  GenericForm props w = Some (e, w') ->
  exists env es,
    children_env w' = Some env
    /\ mapM (fun child : Component => child env) (GenericFormProps.children props)
       = Some es
    /\ children_of e
       = [createElement form_
            (jsx ∅ [("onSubmit",
                     PHandler (handleSubmit_onSubmit
                                 (default 0 (useForm_slot w'))));
                    ("className", opt_str (GenericFormProps.className props))])
            es].
Proof.
  intros Hw H. unfold GenericForm in H.
  destruct Hw as [-> | (l & c & Hslot & Hc & _)].
  - cbn [useForm unmounted useForm_slot heap] in H.
    change (fresh (dom (∅ : Heap))) with 0 in H.
    destruct (mapM _ _) as [es |] eqn:Hes; [| discriminate].
    cbn [mbind option_bind] in H. injection H as <- <-.
    eexists _, es. split; [| split; [exact Hes | reflexivity]].
    unfold children_env. cbn [useForm_slot heap mbind option_bind].
    now rewrite lookup_insert_eq.
  - rewrite Hslot in H. cbn [useForm] in H.
    destruct (mapM _ _) as [es |] eqn:Hes; [| discriminate].
    cbn [mbind option_bind] in H. injection H as <- <-.
    eexists _, es. split; [| split; [exact Hes | reflexivity]].
    unfold children_env. cbn [useForm_slot heap mbind option_bind].
    now rewrite (heap_alter (set_options _) _ _ _ Hc).
Qed.

(** C6: when the schema rejects the form's values, validation produces
    path-keyed error messages and no accepted value (and when it accepts, a
    value and no errors): each reported path is keyed to the first issue
    reported for it.  At the render that follows the rejected submission, a
    field component bound to a rejected path renders that path's error text
    in its message slot. *)
Theorem schema_rejection_shows_error (cn : list (option string) -> string)
  props schema w c (f : Field) issue issues first w' called :
  mounted props w ->
  GenericFormProps.schema props = Some schema ->
  store w = Some c ->
  schema (_formValues c) = failure issue issues ->
  issue_at (field_name f) (issue :: issues) = Some first ->
  step props Render (submit props w).1 = Some (w', called) ->
  let result := zodResolver schema (_formValues c) in
  Resolvers.values result = ∅
  /\ Resolvers.errors result <> ∅
  /\ (forall p : Path,
         Resolvers.errors result !! p
         = field_error <$> issue_at p (issue :: issues))
  /\ (forall candidate data,
         schema candidate = success data ->
         zodResolver schema candidate = mkResolverResult data ∅)
  /\ exists env e,
       children_env w' = Some env
       /\ render_field cn f env = Some e
       /\ message_text e = Some (message first).
Proof.
  intros Hw Hschema Hstore Hreject Hfirst Hrender result.
  assert (Hresult : result
                    = mkResolverResult ∅ (parseErrorSchema (issue :: issues) ∅))
    by (unfold result, zodResolver; now rewrite Hreject).
  assert (Hlookup : forall p : Path,
             parseErrorSchema (issue :: issues) ∅ !! p
             = field_error <$> issue_at p (issue :: issues))
    by (intros p; apply parseErrorSchema_lookup, lookup_empty).
  rewrite Hresult. cbn [Resolvers.values Resolvers.errors].
  split; [reflexivity |]. split; [apply parseErrorSchema_nonempty |].
  split; [exact Hlookup |].
  split; [intros candidate data Haccept; unfold zodResolver; now rewrite Haccept |].
  destruct (mounted_store _ _ Hw) as (l & c0 & Hcons & Hstore').
  rewrite Hstore in Hstore'. injection Hstore' as <-.
  assert (Hsubmit : step props Submit w
                    = Some ((submit props w).1, (submit props w).2))
    by (cbn [step]; now destruct (submit props w)).
  pose proof (step_consistent _ _ _ _ _ _ _ Hcons Hsubmit) as Hcons1.
  pose proof (step_consistent _ _ _ _ _ _ _ Hcons1 Hrender) as Hcons2.
  pose proof (children_env_consistent _ _ _ _ Hcons2) as Henv.
  destruct Hcons as (_ & _ & Hopts & _). destruct Hcons2 as (_ & Hc2 & _).
  destruct (render_field_under_form cn f
              (mkEnv (heap w') (Some (mkForm l (useForm_formState w'))) None)
              _ _ eq_refl Hc2)
    as (e & Hrender_field & _ & Hmessage).
  eexists _, e. split; [exact Henv |]. split; [exact Hrender_field |].
  rewrite (Hmessage (field_error first)); [reflexivity |].
  cbn [after set_options _formState].
  unfold _handleSubmit, _executeValidation.
  rewrite Hopts. unfold useFormProps. rewrite Hschema.
  cbn [resolver]. fold result. rewrite Hresult.
  cbn [Resolvers.errors Resolvers.values fst _formState RHF.errors].
  now rewrite Hlookup, Hfirst.
Qed.

(** C7, amended: across the life of a mounted form the ref always holds a
    handle, and the get, set and reset operations of every handle made so
    far, the one in the ref and any that code outside has kept from an
    earlier render, act on the one store the form was mounted with.  The
    handle object itself is not kept: every render makes a new object and
    puts it in the ref, so that the ref does not refer to the object it
    referred to before; between renders the ref keeps referring to the same
    object. *)
Theorem handle_across_renders props a w w' called :
  mounted props w ->
  step props a w = Some (w', called) ->
  exists l handle handle',
    useForm_slot w = Some l
    /\ useForm_slot w' = Some l
    /\ ref_current w = Some handle
    /\ ref_current w' = Some handle'
    /\ (forall kept, kept ∈ handles w' -> acts_on l kept)
    /\ (a = Render ->
        handles w' = (handles w ++ [handle'])%list
        /\ ref_address w' = Some (length (handles w))
        /\ ref_address w' <> ref_address w)
    /\ (a <> Render ->
        handles w' = handles w
        /\ ref_address w' = ref_address w
        /\ handle' = handle).
Proof.
  intros Hw Hstep.
  destruct (mounted_consistent _ _ Hw) as (l & c & Hslot & Hc & _ & [st Href] & _).
  destruct (step_store _ _ _ _ _ _ _ _ Hslot Hc Href Hstep)
    as (Hslot' & _ & Href' & _).
  destruct (step_handles _ _ _ _ _ _ _ Hslot Href Hstep) as (_ & Hhandles).
  destruct (mounted_handles _ _ (mounted_step _ _ _ _ _ Hw Hstep))
    as (l' & Hslot'' & Hall).
  rewrite Hslot' in Hslot''. injection Hslot'' as <-.
  eexists l, _, _.
  repeat (split; [eassumption |]).
  split.
  { intros kept Hkept. rewrite Forall_forall in Hall.
    destruct (Hall kept Hkept) as [st' ->]. apply createHandle_acts_on. }
  split.
  - intros ->. rewrite Hhandles. split; [reflexivity |].
    rewrite (ref_address_handles w'), (ref_address_handles w), Hhandles.
    unfold ref_current in Href.
    destruct (handles w) as [| first rest]; [discriminate |].
    cbn [app length Nat.pred]. rewrite length_app. cbn [length].
    rewrite Nat.add_1_r. split; [reflexivity |]. intros [= Heq].
    now apply Nat.neq_succ_diag_l in Heq.
  - intros Ha. assert (Hsame : handles w' = handles w) by now destruct a.
    split; [assumption |]. unfold ref_address. rewrite Hsame.
    split; [reflexivity |]. now destruct a.
Qed.

End FormProperties.

(** ** The claims on the example form *)

Lemma world_after_mounted {A : Type} (props : GenericFormProps.t A)
  (actions : list Action) :
  is_Some (GenericForm props unmounted) ->
  is_Some (run props actions (first_world props)) ->
  mounted props (world_after props actions).
Proof.
  intros [[e w0] Hfirst] [[w calls] Hrun]. unfold world_after.
  unfold first_world in *. rewrite Hfirst in *. cbn [from_option snd] in *.
  rewrite Hrun. cbn [from_option fst].
  eapply run_mounted; [eapply mounted_first; exact Hfirst | exact Hrun].
Qed.

(** Settles [is_Some] of a closed computation. *)
Ltac runs := eexists; reflexivity.

Lemma example_mounted (actions : list Action) :
  is_Some (run Example.props actions (first_world Example.props)) ->
  mounted Example.props (world_after Example.props actions).
Proof. apply world_after_mounted. runs. Qed.

Lemma GenericForm_forwards_and_exposes_witness :
  exists l c handle st,
    useForm_slot (world_after Example.props []) = Some l
    /\ heap (world_after Example.props []) !! l = Some c
    /\ _options c
       = {| defaultValues := Example.initialValues;
            resolver := Some (zodResolver Example.userSchema) |}
    /\ (forall e,
           GenericForm Example.props unmounted
           = Some (e, world_after Example.props []) ->
           c = createFormControl
                 {| defaultValues := Example.initialValues;
                    resolver := Some (zodResolver Example.userSchema) |})
    /\ ref_current (world_after Example.props []) = Some handle
    /\ GenericFormRef.keys handle
       = ["getValues"; "reset"; "setValue"; "formState"; "control"; "form"]
    /\ acts_on l handle
    /\ GenericFormRef.formState handle = Some st
    /\ GenericFormRef.member "control" handle = Some (GenericFormRef.control_ l)
    /\ GenericFormRef.member "form" handle
       = Some (GenericFormRef.form_ (mkForm l st)).
Proof.
  apply (GenericForm_forwards_and_exposes Example.props
           (world_after Example.props [])
           (example_mounted [] ltac:(runs))).
Defined.

(** C2, as stated, fails: the handle has members beyond the four operations
    named: [control] and [form]. *)
Lemma handle_exposes_control_and_form :
  ~ (forall handle : GenericFormRef.t,
        ref_current (first_world Example.props) = Some handle ->
        forall key : string,
          key ∈ GenericFormRef.keys handle
          <-> key ∈ ["getValues"; "reset"; "setValue"; "formState"]).
Proof.
  intros H.
  specialize (H (createHandle (mkForm 0 initialFormState))
                ltac:(reflexivity) "form").
  rewrite createHandle_keys in H.
  assert (Hin : "form" ∈ ["getValues"; "reset"; "setValue"; "formState"])
    by (apply H; repeat constructor).
  rewrite !elem_of_cons, elem_of_nil in Hin.
  destruct Hin as [? | [? | [? | [? | []]]]]; discriminate.
Qed.

Lemma reset_restores_default_values_witness :
  exists w' handle,
    step Example.props (Reset None)
      (world_after Example.props
         [SetValue "name" (VString "Ann"); Submit; Render;
          Change "agreeToTerms" (VBool true)])
    = Some (w', None)
    /\ ref_current w' = Some handle
    /\ GenericFormRef.getValues handle (heap w')
       = Some (defaults_after
                 [SetValue "name" (VString "Ann"); Submit; Render;
                  Change "agreeToTerms" (VBool true)]
                 Example.initialValues)
    /\ (resets_without_argument
          [SetValue "name" (VString "Ann"); Submit; Render;
           Change "agreeToTerms" (VBool true)] ->
        GenericFormRef.getValues handle (heap w')
        = Some Example.initialValues).
Proof.
  apply (reset_restores_default_values Example.props
           (from_option fst nothing (GenericForm Example.props unmounted))
           (first_world Example.props)
           [SetValue "name" (VString "Ann"); Submit; Render;
            Change "agreeToTerms" (VBool true)]
           (world_after Example.props
              [SetValue "name" (VString "Ann"); Submit; Render;
               Change "agreeToTerms" (VBool true)])
           []);
    reflexivity.
Defined.

(** C4, as stated, fails: after a reset with an argument, a reset with no
    argument restores that argument, not the initialValues supplied to
    GenericForm. *)
Lemma reset_after_reset_with_values :
  ~ (forall (w w' : World) (called : option FieldValues)
       (handle : GenericFormRef.t),
        mounted Example.props w ->
        step Example.props (Reset None) w = Some (w', called) ->
        ref_current w' = Some handle ->
        GenericFormRef.getValues handle (heap w')
        = Some (GenericFormProps.initialValues Example.props)).
Proof.
  intros H.
  specialize (H (world_after Example.props
                   [Reset (Some {[ "name" := VString "Ann" ]})])
                (world_after Example.props
                   [Reset (Some {[ "name" := VString "Ann" ]}); Reset None])
                None
                (createHandle (mkForm 0 initialFormState))
                (example_mounted
                   [Reset (Some {[ "name" := VString "Ann" ]})] ltac:(runs))
                ltac:(reflexivity)
                ltac:(reflexivity)).
  apply (f_equal (fun values => values ≫= (.!! "agreeToTerms"))) in H.
  vm_compute in H. discriminate.
Qed.

Lemma onSubmit_called_iff_schema_accepts_witness :
  exists c,
    store (world_after Example.props
             [Change "name" (VString "Ann");
              Change "agreeToTerms" (VBool true)]) = Some c
    /\ (submit Example.props
          (world_after Example.props
             [Change "name" (VString "Ann");
              Change "agreeToTerms" (VBool true)])).2
       = match Example.userSchema (_formValues c) with
         | success data => Some data
         | failure _ _ => None
         end.
Proof.
  apply (onSubmit_called_iff_schema_accepts Example.props Example.userSchema
           (world_after Example.props
              [Change "name" (VString "Ann");
               Change "agreeToTerms" (VBool true)])
           (example_mounted
              [Change "name" (VString "Ann");
               Change "agreeToTerms" (VBool true)] ltac:(runs))
           eq_refl).
Defined.

Lemma no_schema_no_validation_witness :
  exists c,
    store (world_after Example.props_without_schema
             [Change "name" (VString "A")]) = Some c
    /\ resolver (_options c) = None
    /\ (submit Example.props_without_schema
          (world_after Example.props_without_schema
             [Change "name" (VString "A")])).2
       = Some (_formValues c).
Proof.
  apply (no_schema_no_validation Example.props_without_schema
           (world_after Example.props_without_schema
              [Change "name" (VString "A")])
           (world_after_mounted Example.props_without_schema
              [Change "name" (VString "A")] ltac:(runs) ltac:(runs))
           eq_refl).
Defined.

Lemma schema_rejection_shows_error_witness :
  exists env e,
    children_env (world_after Example.props [Submit; Render]) = Some env
    /\ render_field join_classes (text_field Example.nameField) env = Some e
    /\ message_text e = Some "Name is required".
Proof.
  apply (schema_rejection_shows_error join_classes Example.props
           Example.userSchema (world_after Example.props [])
           (createFormControl (useFormProps Example.props))
           (text_field Example.nameField)
           (mkIssue "name" "too_small" "Name is required")
           [mkIssue "agreeToTerms" "custom" "You must agree to the terms"]
           (mkIssue "name" "too_small" "Name is required")
           (world_after Example.props [Submit; Render]) None
           (example_mounted [] ltac:(runs))
           eq_refl
           ltac:(reflexivity)
           ltac:(reflexivity)
           ltac:(reflexivity)
           ltac:(reflexivity)).
Defined.

Lemma handle_across_renders_witness :
  exists l handle handle',
    useForm_slot (world_after Example.props [Submit]) = Some l
    /\ useForm_slot (world_after Example.props [Submit; Render]) = Some l
    /\ ref_current (world_after Example.props [Submit]) = Some handle
    /\ ref_current (world_after Example.props [Submit; Render]) = Some handle'
    /\ (forall kept,
           kept ∈ handles (world_after Example.props [Submit; Render]) ->
           acts_on l kept)
    /\ (Render = Render ->
        handles (world_after Example.props [Submit; Render])
        = (handles (world_after Example.props [Submit]) ++ [handle'])%list
        /\ ref_address (world_after Example.props [Submit; Render])
           = Some (length (handles (world_after Example.props [Submit])))
        /\ ref_address (world_after Example.props [Submit; Render])
           <> ref_address (world_after Example.props [Submit]))
    /\ (Render <> Render ->
        handles (world_after Example.props [Submit; Render])
        = handles (world_after Example.props [Submit])
        /\ ref_address (world_after Example.props [Submit; Render])
           = ref_address (world_after Example.props [Submit])
        /\ handle' = handle).
Proof.
  apply (handle_across_renders Example.props Render
           (world_after Example.props [Submit])
           (world_after Example.props [Submit; Render]) None
           (example_mounted [Submit] ltac:(runs))).
  reflexivity.
Defined.

(** C7, as stated, fails: code outside that kept the handle of the first
    render does not observe the same handle after another render: the ref
    then refers to a second object. *)
Lemma handle_rebuilt_by_render :
  ~ (forall (w w' : World) (called : option FieldValues),
        mounted Example.props w ->
        step Example.props Render w = Some (w', called) ->
        ref_address w' = ref_address w).
Proof.
  intros H.
  specialize (H (world_after Example.props [])
                (world_after Example.props [Render]) None
                (example_mounted [] ltac:(runs))
                ltac:(reflexivity)).
  vm_compute in H. discriminate.
Qed.

(** * Further properties of the components *)

(** ** Skipping subtrees that cannot hold the element looked for *)

Lemma query_and_string ty s e :
  query ty e = None -> query ty (and_string s e) = None.
Proof. intros H. now destruct s as [[| a s] |]. Qed.

Lemma query_and_bool ty b e :
  query ty e = None -> query ty (and_bool b e) = None.
Proof. intros H. now destruct b as [[|] |]. Qed.

Lemma query_and_function ty f e :
  query ty e = None -> query ty (and_function f e) = None.
Proof. intros H. now destruct f. Qed.

(** Walks [query] down a tree of known shape, passing over the optional
    subtrees that cannot hold the element looked for. *)
Ltac query_walk :=
  repeat first
    [ rewrite query_eq
    | rewrite query_ne by discriminate
    | rewrite query_text
    | rewrite query_nothing
    | rewrite query_and_string by (query_walk; reflexivity)
    | rewrite query_and_bool by (query_walk; reflexivity)
    | rewrite query_and_function by (query_walk; reflexivity)
    | progress cbn [query_list] ].

(** ** The text field *)

Section TextFieldProperties.

(** Unfolds a field rendered under a form provider whose store is [c]. *)
Ltac under_form Hform Hc :=
  unfold FormField; rewrite Hform; cbn [mbind option_bind];
  rewrite Hc; cbn [mbind option_bind];
  erewrite FormMessage_renders by (cbn; eauto);
  cbn [mbind option_bind].

(** X1: the input of a text field is wired to the store of the form in
    context at the field's path: its onChange, onBlur, name and ref are the
    ones the controller made for that store and path, and no attribute
    written after the spread replaces them. *)
Theorem TextField_input_wiring (p : TextFieldProps.t) (env : RenderEnv)
  (form : UseFormReturn) (c : Control) :
  useFormContext env = Some form ->
  env_heap env !! control form = Some c ->
  let name := BaseFieldProps.name (TextFieldProps.base p) in
  exists e i,
    TextField p env = Some e
    /\ query Input e = Some i
    /\ props_of i !! "onChange"
       = Some (PHandler (field_onChange (control form) name))
    /\ props_of i !! "onBlur"
       = Some (PHandler (field_onBlur (control form) name))
    /\ props_of i !! "name" = Some (str name)
    /\ props_of i !! "ref" = Some (PRef (control form) name)
    /\ children_of i = [].
Proof.
  intros Hform Hc name. unfold TextField. under_form Hform Hc.
  eexists _, _. split; [reflexivity |].
  split; [query_walk; reflexivity |].
  repeat split; prop_lookup; reflexivity.
Qed.

(** X2: the attributes a text field writes on its input: the type (text
    unless given), the placeholder ('Enter value' unless given), the field
    name as id and the disabled flag (false unless given), and no attribute
    beyond these, the class and the five of the controller; in particular no
    required attribute.  A label that is shown points at the input: its
    htmlFor is the input's id. *)
Theorem TextField_input_attributes (p : TextFieldProps.t) (env : RenderEnv)
  (form : UseFormReturn) (c : Control) :
  useFormContext env = Some form ->
  env_heap env !! control form = Some c ->
  let base := TextFieldProps.base p in
  exists e i,
    TextField p env = Some e
    /\ query Input e = Some i
    /\ props_of i !! "type"
       = Some (str (TextFieldProps.type_name
                      (default TextFieldProps.text (TextFieldProps.type p))))
    /\ props_of i !! "placeholder"
       = Some (str (default "Enter value" (BaseFieldProps.placeholder base)))
    /\ props_of i !! "id" = Some (str (BaseFieldProps.name base))
    /\ props_of i !! "disabled"
       = Some (boolean (default false (BaseFieldProps.disabled base)))
    /\ dom (props_of i)
       = list_to_set ["onChange"; "onBlur"; "value"; "name"; "ref"; "type";
                      "placeholder"; "className"; "id"; "disabled"]
    /\ props_of i !! "required" = None
    /\ forall a s,
         BaseFieldProps.label base = Some (String a s) ->
         exists l,
           query FormLabel e = Some l
           /\ props_of l !! "htmlFor" = props_of i !! "id".
Proof.
  intros Hform Hc base. subst base. unfold TextField. under_form Hform Hc.
  eexists _, _. split; [reflexivity |].
  split; [query_walk; reflexivity |].
  do 4 (split; [prop_lookup; reflexivity |]).
  split.
  { cbn [props_of jsx spread_field foldl fst snd list_to_set].
    rewrite !dom_insert_L, dom_empty_L. set_solver. }
  split.
  { cbn [props_of jsx spread_field foldl fst snd].
    rewrite ?lookup_insert_ne by done. apply lookup_empty. }
  intros a s Hlabel. rewrite Hlabel. cbn [and_string].
  eexists. split; [query_walk; reflexivity |].
  prop_lookup. reflexivity.
Qed.

(** X3: the class of the input is made by a template literal, so a text
    field given no inputClass carries the word undefined in its class. *)
Theorem TextField_class_without_inputClass (p : TextFieldProps.t)
  (env : RenderEnv) (form : UseFormReturn) (c : Control) :
  useFormContext env = Some form ->
  env_heap env !! control form = Some c ->
  TextFieldProps.inputClass p = None ->
  exists e i,
    TextField p env = Some e
    /\ query Input e = Some i
    /\ props_of i !! "className"
       = Some (str (if TextFieldProps.action p is Some _
                    then "w-full undefined pr-12"
                    else "w-full undefined ")).
Proof.
  intros Hform Hc Hclass. unfold TextField. under_form Hform Hc.
  rewrite Hclass.
  eexists _, _. split; [reflexivity |].
  query_walk. split; [reflexivity |]. prop_lookup.
  now destruct (TextFieldProps.action p).
Qed.

(** X4: next to its input a text field renders a spinner exactly when
    loading is true, and an action button exactly when an action is given.
    The button is of type button, so it never submits the form; its click
    handler is the action, it is disabled with the field, and it shows the
    icon, by default the X icon of size 16. *)
Theorem TextField_spinner_and_action (p : TextFieldProps.t) (env : RenderEnv)
  (form : UseFormReturn) (c : Control) :
  useFormContext env = Some form ->
  env_heap env !! control form = Some c ->
  exists e wrapper i spinner action,
    TextField p env = Some e
    /\ query div e = Some wrapper
    /\ children_of wrapper = [i; spinner; action]
    /\ query Input e = Some i
    /\ (TextFieldProps.loading p = Some true ->
        type_of spinner = Some div /\ children_of spinner = [])
    /\ (TextFieldProps.loading p <> Some true -> spinner = nothing)
    /\ (TextFieldProps.action p = None -> action = nothing)
    /\ (forall h,
           TextFieldProps.action p = Some h ->
           type_of action = Some Button
           /\ query Button e = Some action
           /\ props_of action !! "type" = Some (str "button")
           /\ props_of action !! "onClick" = Some (PHandler h)
           /\ props_of action !! "disabled"
              = Some (boolean
                        (default false
                           (BaseFieldProps.disabled (TextFieldProps.base p))))
           /\ children_of action
              = [default
                   (createElement X
                      (jsx ∅ [("size", number 16);
                              ("className", str "text-muted-foreground")])
                      [])
                   (TextFieldProps.icon p)]).
Proof.
  intros Hform Hc. unfold TextField. under_form Hform Hc.
  eexists _, _, _, _, _. split; [reflexivity |].
  split; [query_walk; reflexivity |]. cbn [children_of].
  split; [reflexivity |]. split; [query_walk; reflexivity |].
  split; [intros ->; split; reflexivity |].
  split; [destruct (TextFieldProps.loading p) as [[|] |]; intros H;
          try reflexivity; now destruct H |].
  split; [now intros -> |].
  intros h ->. cbn [and_function type_of children_of opt_handler from_option].
  split; [reflexivity |].
  split; [query_walk; reflexivity |].
  repeat split; prop_lookup; reflexivity.
Qed.

End TextFieldProperties.

(** ** The checkbox field, the select field and the submit button *)

Section OtherFieldProperties.
Variable cn : list (option string) -> string.

Ltac under_form Hform Hc :=
  unfold FormField; rewrite Hform; cbn [mbind option_bind];
  rewrite Hc; cbn [mbind option_bind];
  erewrite FormMessage_renders by (cbn; eauto);
  cbn [mbind option_bind].

(** X5: the checkbox of a checkbox field gets four props and no more: the
    store's value as checked, the controller's onChange as onCheckedChange,
    and the disabled and required props as they were given, undefined when
    they were not (there are no defaults); the controller's onBlur, name and
    ref are not passed on.  The item's class is [cn] of the fixed row classes
    and the className prop. *)
Theorem CheckboxField_checkbox (p : BaseFieldProps.t) (env : RenderEnv)
  (form : UseFormReturn) (c : Control) :
  useFormContext env = Some form ->
  env_heap env !! control form = Some c ->
  exists e b,
    CheckboxField cn p env = Some e
    /\ type_of e = Some FormItem
    /\ props_of e !! "className"
       = Some (str (cn [Some "flex flex-row items-start space-x-3 space-y-0";
                        BaseFieldProps.className p]))
    /\ query Checkbox e = Some b
    /\ props_of b !! "checked"
       = Some (PVal (get (_formValues c) (BaseFieldProps.name p)))
    /\ props_of b !! "onCheckedChange"
       = Some (PHandler (field_onChange (control form) (BaseFieldProps.name p)))
    /\ props_of b !! "disabled" = Some (opt_bool (BaseFieldProps.disabled p))
    /\ props_of b !! "required" = Some (opt_bool (BaseFieldProps.required p))
    /\ dom (props_of b)
       = list_to_set ["checked"; "onCheckedChange"; "disabled"; "required"].
Proof.
  intros Hform Hc. unfold CheckboxField. under_form Hform Hc.
  eexists _, _. split; [reflexivity |]. split; [reflexivity |].
  split; [prop_lookup; reflexivity |].
  split; [query_walk; reflexivity |].
  repeat (split; [prop_lookup; reflexivity |]).
  cbn [props_of jsx foldl fst snd list_to_set].
  rewrite !dom_insert_L, dom_empty_L. set_solver.
Qed.

(** X6: the select of a select field gets three props and no more: the
    controller's onChange as onValueChange, the store's value, and the
    disabled flag, false unless given; in particular no required attribute
    and no name.  The trigger shows the placeholder, 'Select an option'
    unless one is given. *)
Theorem SelectField_select (p : SelectFieldProps.t) (env : RenderEnv)
  (form : UseFormReturn) (c : Control) :
  useFormContext env = Some form ->
  env_heap env !! control form = Some c ->
  let base := SelectFieldProps.base p in
  exists e s v,
    SelectField p env = Some e
    /\ query Select e = Some s
    /\ props_of s !! "onValueChange"
       = Some (PHandler (field_onChange (control form) (BaseFieldProps.name base)))
    /\ props_of s !! "disabled"
       = Some (boolean (default false (BaseFieldProps.disabled base)))
    /\ dom (props_of s) = list_to_set ["onValueChange"; "value"; "disabled"]
    /\ query SelectValue e = Some v
    /\ props_of v !! "placeholder"
       = Some (str (default "Select an option" (BaseFieldProps.placeholder base))).
Proof.
  intros Hform Hc base. unfold SelectField. under_form Hform Hc.
  eexists _, _, _. split; [reflexivity |].
  split; [query_walk; reflexivity |].
  split; [prop_lookup; reflexivity |].
  split; [prop_lookup; reflexivity |].
  split.
  { cbn [props_of jsx foldl fst snd list_to_set].
    rewrite !dom_insert_L, dom_empty_L. set_solver. }
  split; [query_walk; reflexivity |].
  prop_lookup. reflexivity.
Qed.

Lemma str_inj : Inj (=) (=) (fun v : string => Some (str v)).
Proof. intros v1 v2 H. now injection H. Qed.

(** X7: the items of a select field are keyed by their option's value: the
    keys are pairwise distinct exactly when the option values are, and a
    select field without options renders an empty list. *)
Theorem SelectField_item_keys (p : SelectFieldProps.t) (env : RenderEnv)
  (form : UseFormReturn) (c : Control) :
  useFormContext env = Some form ->
  env_heap env !! control form = Some c ->
  exists e content,
    SelectField p env = Some e
    /\ query SelectContent e = Some content
    /\ (fun item => props_of item !! "key") <$> children_of content
       = (fun option => Some (str (SelectOption.value option)))
           <$> SelectFieldProps.options p
    /\ (NoDup ((fun item => props_of item !! "key") <$> children_of content)
        <-> NoDup (SelectOption.value <$> SelectFieldProps.options p))
    /\ (SelectFieldProps.options p = [] -> children_of content = []).
Proof.
  intros Hform Hc. unfold SelectField. under_form Hform Hc.
  eexists _, _. split; [reflexivity |].
  split; [query_walk; reflexivity |]. cbn [children_of].
  assert (Hkeys : (fun item => props_of item !! "key")
                    <$> map (fun option =>
                               createElement SelectItem
                                 (jsx ∅ [("key", str (SelectOption.value option));
                                         ("value", str (SelectOption.value option));
                                         ("disabled",
                                          opt_bool (SelectOption.disabled option))])
                                 [text (SelectOption.text option)])
                          (SelectFieldProps.options p)
                  = (fun option => Some (str (SelectOption.value option)))
                      <$> SelectFieldProps.options p).
  { induction (SelectFieldProps.options p) as [| o rest IH]; [reflexivity |].
    cbn [map]. rewrite fmap_cons, IH, fmap_cons. now f_equal. }
  split; [exact Hkeys |]. split.
  - rewrite Hkeys.
    rewrite (list_fmap_compose SelectOption.value
               (fun v : string => Some (str v))).
    apply (NoDup_fmap _ (Inj0 := str_inj)).
  - now intros ->.
Qed.

Lemma query_list_map_none {B : Type} ty (item : B -> Element) (l : list B) :
  (forall x, query ty (item x) = None) -> query_list ty (map item l) = None.
Proof.
  intros H. induction l as [| x rest IH]; cbn [map query_list];
    [reflexivity | now rewrite H].
Qed.

Lemma query_message_slot ty (error : option FieldError) className :
  ty <> React.FormMessage ->
  query ty match error with
           | Some error =>
               createElement React.FormMessage
                 (jsx ∅ [("className", opt_str className)])
                 [text (error_message error)]
           | None => nothing
           end = None.
Proof.
  intros Hty. destruct error; [| reflexivity].
  rewrite query_ne by congruence. reflexivity.
Qed.

(** X8: a field without a label, or with the empty string as label, renders
    no label element at all, and with it no required marker, whether the
    field is required or not.  (For a text field with an action the icon is
    the caller's and may hold anything, so the statement is for text fields
    without an action.) *)
Theorem unlabelled_field_has_no_marker (f : Field) (env : RenderEnv)
  (form : UseFormReturn) (c : Control) :
  useFormContext env = Some form ->
  env_heap env !! control form = Some c ->
  BaseFieldProps.label (field_base f) = None
  \/ BaseFieldProps.label (field_base f) = Some "" ->
  (forall p, f = text_field p -> TextFieldProps.action p = None) ->
  exists e, render_field cn f env = Some e /\ query FormLabel e = None.
Proof.
  intros Hform Hc Hlabel Haction.
  destruct f as [p | p | p]; cbn [render_field field_base] in *.
  - unfold TextField. under_form Hform Hc.
    rewrite (Haction p eq_refl).
    eexists. split; [reflexivity |].
    destruct Hlabel as [-> | ->]; cbn [and_string and_function]; query_walk;
      now rewrite query_message_slot.
  - unfold SelectField. under_form Hform Hc.
    eexists. split; [reflexivity |].
    destruct Hlabel as [-> | ->]; cbn [and_string]; query_walk;
      (rewrite query_list_map_none by (intros; query_walk; reflexivity));
      now rewrite query_message_slot.
  - unfold CheckboxField. under_form Hform Hc.
    eexists. split; [reflexivity |].
    destruct Hlabel as [-> | ->]; cbn [and_string]; query_walk;
      now rewrite query_message_slot.
Qed.

(** X9: the submit button has the props type, className and disabled and no
    other, so no click handler: it acts only by submitting the form around
    it.  While loading it holds one wrapper with the spinner and the loading
    label; otherwise it holds the label text alone. *)
Theorem SubmitButton_structure (p : SubmitButtonProps.t) :
  dom (props_of (SubmitButton cn p))
  = list_to_set ["type"; "className"; "disabled"]
  /\ (SubmitButtonProps.isLoading p = Some true ->
      exists wrapper spinner,
        children_of (SubmitButton cn p) = [wrapper]
        /\ type_of wrapper = Some div
        /\ children_of wrapper
           = [spinner;
              text (default "Submitting..." (SubmitButtonProps.loadingLabel p))]
        /\ type_of spinner = Some div
        /\ children_of spinner = [])
  /\ (SubmitButtonProps.isLoading p <> Some true ->
      children_of (SubmitButton cn p)
      = [text (default "Submit" (SubmitButtonProps.label p))]).
Proof.
  split.
  { unfold SubmitButton. cbn [props_of jsx foldl fst snd list_to_set].
    rewrite !dom_insert_L, dom_empty_L. set_solver. }
  unfold SubmitButton. split.
  - intros ->. cbn [default from_option id children_of].
    eexists _, _. repeat split.
  - destruct (SubmitButtonProps.isLoading p) as [[|] |]; intros H;
      [now destruct H | reflexivity | reflexivity].
Qed.

End OtherFieldProperties.

(** ** The form *)

Section MoreFormProperties.
Context {A : Type}.
Implicit Types (props : GenericFormProps.t A) (w : World) (c : Control).

(** X10: what [GenericForm] returns: the form provider around one form
    element, whose class is the className prop and whose submit handler is
    handleSubmit of the form's own store, holding the children in the order
    given, each rendered under the environment of this render. *)
Theorem GenericForm_tree props w e w' :
  w = unmounted \/ mounted props w ->
  GenericForm props w = Some (e, w') ->
  exists l env f,
    useForm_slot w' = Some l
    /\ children_env w' = Some env
    /\ type_of e = Some Form
    /\ children_of e = [f]
    /\ type_of f = Some form_
    /\ props_of f !! "onSubmit" = Some (PHandler (handleSubmit_onSubmit l))
    /\ props_of f !! "className"
       = Some (opt_str (GenericFormProps.className props))
    /\ length (children_of f) = length (GenericFormProps.children props)
    /\ forall (i : nat) (child : Component),
         GenericFormProps.children props !! i = Some child ->
         exists rendered,
           child env = Some rendered /\ children_of f !! i = Some rendered.
Proof.
  intros Hw H.
  assert (Hshape : exists l form state heap',
             useForm (useFormProps props) (useForm_slot w)
               (useForm_formState w) (heap w)
             = (form, Some l, state, heap')
             /\ control form = l
             /\ children_env
                  (mkWorld heap' (Some l) state
                     (handles w ++ [createHandle form]))
                = Some (mkEnv heap' (Some form) None)).
  { destruct Hw as [-> | Hw];
      [| destruct (mounted_consistent _ _ Hw) as (l & c & Hslot & Hc & _)].
    - cbn [unmounted useForm_slot heap useForm].
      eexists _, _, _, _. split; [reflexivity |]. split; [reflexivity |].
      unfold children_env. cbn [useForm_slot heap mbind option_bind control].
      now rewrite lookup_insert_eq.
    - rewrite Hslot. cbn [useForm].
      eexists _, _, _, _. split; [reflexivity |]. split; [reflexivity |].
      unfold children_env. cbn [useForm_slot heap mbind option_bind].
      now rewrite (heap_alter (set_options _) _ _ _ Hc). }
  destruct Hshape as (l & form & state & heap' & Huse & Hl & Henv).
  unfold GenericForm in H. rewrite Huse in H.
  destruct (mapM _ _) as [es |] eqn:Hes; [| discriminate].
  cbn [mbind option_bind] in H. injection H as <- <-.
  exists l, (mkEnv heap' (Some form) None). eexists.
  split; [reflexivity |]. split; [exact Henv |].
  split; [reflexivity |]. split; [reflexivity |]. split; [reflexivity |].
  split; [rewrite Hl; prop_lookup; reflexivity |].
  split; [prop_lookup; reflexivity |].
  cbn [children_of]. apply mapM_Some_1 in Hes.
  split; [symmetry; eapply Forall2_length, Hes |].
  intros i child Hi.
  destruct (Forall2_lookup_l _ _ _ _ _ Hes Hi) as (rendered & Hrendered & Hchild).
  eauto.
Qed.

(** X11: in a form whose children are leaves of this library every leaf
    finds the form context it asks for: the form renders at first, and it
    renders again in every world it goes through. *)
Theorem form_of_leaves_renders cn (leaves : list Leaf) props :
  GenericFormProps.children props = map (render_leaf cn) leaves ->
  (exists e w, GenericForm props unmounted = Some (e, w))
  /\ forall w, mounted props w ->
       exists e w', GenericForm props w = Some (e, w').
Proof.
  intros Hchildren. split.
  - apply (GenericForm_renders cn leaves); [exact Hchildren | now left].
  - intros w Hw. destruct (mounted_consistent _ _ Hw) as (l & c & Hcons).
    apply (GenericForm_renders cn leaves); [exact Hchildren |]. right. eauto.
Qed.


Lemma fields_in_children_env cn props w l c :
  consistent props w l c ->
  exists env,
    children_env w = Some env
    /\ forall f : Field,
         exists e,
           render_field cn f env = Some e
           /\ rendered_value f e
              = Some (PVal (get (_formValues c) (field_name f))).
Proof.
  intros Hcons. pose proof (children_env_consistent _ _ _ _ Hcons) as Henv.
  destruct Hcons as (_ & Hc & _).
  eexists. split; [exact Henv |]. intros f.
  destruct (render_field_under_form cn f
              (mkEnv (heap w) (Some (mkForm l (useForm_formState w))) None)
              _ _ eq_refl Hc) as (e & He & Hv & _).
  eauto.
Qed.

Lemma store_consistent props w l c :
  consistent props w l c -> store w = Some c.
Proof. intros (Hslot & Hc & _). unfold store. now rewrite Hslot. Qed.





(** X14: a form keeps to its own store.  Mounting creates the store at an
    address no store had and leaves every other store as it was, and so does
    every later action, whether it comes through the handle, the submit
    event, a field or a render. *)
Theorem form_keeps_to_its_store props :
  (forall w e w',
      useForm_slot w = None ->
      GenericForm props w = Some (e, w') ->
      exists l,
        useForm_slot w' = Some l
        /\ heap w !! l = None
        /\ heap w' !! l = Some (createFormControl (useFormProps props))
        /\ forall l', l' <> l -> heap w' !! l' = heap w !! l')
  /\ (forall w a w' called l st,
         useForm_slot w = Some l ->
         ref_current w = Some (createHandle (mkForm l st)) ->
         step props a w = Some (w', called) ->
         useForm_slot w' = Some l
         /\ forall l', l' <> l -> heap w' !! l' = heap w !! l').
Proof.
  split.
  - intros w e w' Hslot H. unfold GenericForm in H. rewrite Hslot in H.
    cbn [useForm] in H.
    destruct (mapM _ _); [| discriminate].
    cbn [mbind option_bind] in H. injection H as <- <-.
    exists (fresh (dom (heap w))). cbn [useForm_slot heap].
    split; [reflexivity |].
    split; [apply not_elem_of_dom, is_fresh |].
    split; [apply lookup_insert_eq |].
    intros l' Hl'. now rewrite lookup_insert_ne by congruence.
  - intros w a w' called l st Hslot Href Hstep.
    destruct a as [| values | name value | | name value]; cbn [step] in Hstep.
    + unfold GenericForm in Hstep. rewrite Hslot in Hstep.
      cbn [useForm] in Hstep.
      destruct (mapM _ _); [| discriminate].
      cbn [mbind option_bind] in Hstep. injection Hstep as <- <-.
      cbn [useForm_slot heap]. split; [reflexivity |].
      intros l' Hl'. now rewrite lookup_alter_ne by congruence.
    + rewrite Href in Hstep.
      change (GenericFormRef.reset (createHandle (mkForm l st)) values (heap w))
        with (Some (reset l values (heap w))) in Hstep.
      cbn [mbind option_bind] in Hstep. injection Hstep as <- <-.
      cbn [with_heap useForm_slot heap]. split; [exact Hslot |].
      intros l' Hl'. unfold reset. now rewrite lookup_alter_ne by congruence.
    + rewrite Href in Hstep.
      change (GenericFormRef.setValue (createHandle (mkForm l st)) name value
                (heap w))
        with (Some (setValue l name value (heap w))) in Hstep.
      cbn [mbind option_bind] in Hstep. injection Hstep as <- <-.
      cbn [with_heap useForm_slot heap]. split; [exact Hslot |].
      intros l' Hl'. unfold setValue. now rewrite lookup_alter_ne by congruence.
    + unfold submit, handleSubmit in Hstep. rewrite Hslot in Hstep.
      destruct (heap w !! l) as [c |].
      * destruct (_handleSubmit c) as [c' data]. injection Hstep as <- <-.
        cbn [with_heap useForm_slot heap]. split; [exact Hslot |].
        intros l' Hl'. now rewrite lookup_insert_ne by congruence.
      * injection Hstep as <- <-. cbn [with_heap useForm_slot heap]. eauto.
    + rewrite Hslot in Hstep. injection Hstep as <- <-.
      cbn [with_heap useForm_slot heap]. split; [exact Hslot |].
      intros l' Hl'. unfold RHF.onChange.
      now rewrite lookup_alter_ne by congruence.
Qed.


Lemma alter_twice (opts : UseFormProps) (h : Heap) (l : nat) :
  alter (set_options opts) l (alter (set_options opts) l h)
  = alter (set_options opts) l h.
Proof.
  apply map_eq. intros i. destruct (decide (l = i)) as [-> | Hne].
  - rewrite !lookup_alter_eq. now destruct (h !! i).
  - now rewrite !lookup_alter_ne by exact Hne.
Qed.

(** X16: rendering again changes nothing but the object in the ref: a
    render that follows a render, with no action in between, leaves the
    stores and the hook's cells as the first left them, and the handle it
    makes has the same members as the one the first made. *)
Theorem render_twice props w w1 w2 called1 called2 :
  mounted props w ->
  step props Render w = Some (w1, called1) ->
  step props Render w1 = Some (w2, called2) ->
  exists handle,
    heap w2 = heap w1
    /\ useForm_slot w2 = useForm_slot w1
    /\ useForm_formState w2 = useForm_formState w1
    /\ ref_current w1 = Some handle
    /\ ref_current w2 = Some handle
    /\ handles w2 = (handles w1 ++ [handle])%list.
Proof.
  intros Hw H1 H2.
  destruct (mounted_consistent _ _ Hw) as (l & c & Hslot & Hc & _).
  cbn [step] in H1, H2. unfold GenericForm in H1.
  rewrite Hslot in H1. cbn [useForm] in H1.
  destruct (mapM _ _) as [es1 |]; [| discriminate].
  cbn [mbind option_bind] in H1. injection H1 as <- <-.
  unfold GenericForm in H2.
  cbn [useForm_slot useForm_formState heap handles useForm] in H2.
  destruct (mapM _ _) as [es2 |]; [| discriminate].
  cbn [mbind option_bind] in H2. injection H2 as <- <-.
  exists (createHandle (mkForm l (useForm_formState w))).
  unfold ref_current. cbn [heap useForm_slot useForm_formState handles].
  rewrite alter_twice, !last_snoc. repeat split.
Qed.

(** X17: reset through the handle, at the next render, for the fields bound
    to a key that the values the form is reset to have: after a reset with
    no argument such a field shows the store's default value at its key,
    after a reset with values the value those have at its key.  Either way
    the store's errors are cleared and its record of submissions starts
    over (the handle passes no options to keep any of it), and onSubmit is
    not called. *)
Theorem reset_round_trip cn props values w w1 w2 called1 called2 :
  mounted props w ->
  step props (Reset values) w = Some (w1, called1) ->
  step props Render w1 = Some (w2, called2) ->
  exists c c2 env,
    store w = Some c
    /\ store w2 = Some c2
    /\ called1 = None
    /\ _formState c2 = initialFormState
    /\ children_env w2 = Some env
    /\ forall (f : Field) (x : Value),
         plain_key (field_name f) = true ->
         default (_defaultValues c) values !! field_name f = Some x ->
         x <> VUndefined ->
         exists e,
           render_field cn f env = Some e
           /\ rendered_value f e = Some (PVal x).
Proof.
  intros Hw Hreset Hrender.
  destruct (mounted_store _ _ Hw) as (l & c & Hcons & Hstore).
  pose proof (step_consistent _ _ _ _ _ _ _ Hcons Hreset) as Hcons1.
  pose proof (step_consistent _ _ _ _ _ _ _ Hcons1 Hrender) as Hcons2.
  destruct (fields_in_children_env cn _ _ _ _ Hcons2) as (env & Henv & Hfields).
  destruct Hcons as (Hslot & Hc & _ & [st Href] & _).
  destruct (step_store _ _ _ _ _ _ _ _ Hslot Hc Href Hreset) as (_ & _ & _ & ->).
  eexists c, _, env. split; [exact Hstore |].
  split; [exact (store_consistent _ _ _ _ Hcons2) |].
  split; [reflexivity |]. split; [reflexivity |]. split; [exact Henv |].
  intros f x _ Hx _. destruct (Hfields f) as (e & He & Hv).
  exists e. split; [exact He |]. rewrite Hv. do 2 f_equal.
  cbn [after set_options _reset _formValues]. unfold get.
  destruct values as [v |]; cbn [default from_option id] in *.
  - destruct (bool_decide (v = ∅)) eqn:Hempty.
    + apply bool_decide_eq_true_1 in Hempty. subst v.
      now rewrite lookup_empty in Hx.
    + now rewrite Hx.
  - now rewrite Hx.
Qed.



End MoreFormProperties.

(** ** The further properties on the example form *)

Lemma TextField_input_wiring_witness :
  exists e i,
    TextField Example.disabledNameField (Example.env_over Example.store2)
    = Some e
    /\ query Input e = Some i
    /\ props_of i !! "onChange" = Some (PHandler (field_onChange 0 "name"))
    /\ props_of i !! "onBlur" = Some (PHandler (field_onBlur 0 "name"))
    /\ props_of i !! "name" = Some (str "name")
    /\ props_of i !! "ref" = Some (PRef 0 "name")
    /\ children_of i = [].
Proof.
  apply (TextField_input_wiring Example.disabledNameField
           (Example.env_over Example.store2) (mkForm 0 initialFormState)
           Example.store2);
    vm_compute; reflexivity.
Defined.

Lemma TextField_input_attributes_witness :
  exists e i,
    TextField Example.nameField (Example.env_over Example.store1) = Some e
    /\ query Input e = Some i
    /\ props_of i !! "type" = Some (str "text")
    /\ props_of i !! "placeholder" = Some (str "Enter value")
    /\ props_of i !! "id" = Some (str "name")
    /\ props_of i !! "disabled" = Some (boolean false).
Proof.
  destruct (TextField_input_attributes Example.nameField
              (Example.env_over Example.store1) (mkForm 0 initialFormState)
              Example.store1
              ltac:(vm_compute; reflexivity) ltac:(vm_compute; reflexivity))
    as (e & i & He & Hi & Htype & Hplaceholder & Hid & Hdisabled & _).
  exists e, i. repeat split; assumption.
Defined.

Lemma TextField_class_without_inputClass_witness :
  exists e i,
    TextField Example.nameField (Example.env_over Example.store1) = Some e
    /\ query Input e = Some i
    /\ props_of i !! "className" = Some (str "w-full undefined ").
Proof.
  apply (TextField_class_without_inputClass Example.nameField
           (Example.env_over Example.store1) (mkForm 0 initialFormState)
           Example.store1);
    vm_compute; reflexivity.
Defined.

Lemma TextField_spinner_and_action_witness :
  exists e action,
    TextField Example.disabledNameField (Example.env_over Example.store2)
    = Some e
    /\ query Button e = Some action
    /\ props_of action !! "type" = Some (str "button")
    /\ props_of action !! "onClick" = Some (PHandler (callback 0))
    /\ props_of action !! "disabled" = Some (boolean true).
Proof.
  destruct (TextField_spinner_and_action Example.disabledNameField
              (Example.env_over Example.store2) (mkForm 0 initialFormState)
              Example.store2
              ltac:(vm_compute; reflexivity) ltac:(vm_compute; reflexivity))
    as (e & wrapper & i & spinner & action & He & _ & _ & _ & _ & _ & _ & H).
  destruct (H (callback 0) eq_refl)
    as (_ & Hquery & Htype & Hclick & Hdisabled & _).
  exists e, action. repeat split; assumption.
Defined.

Lemma CheckboxField_checkbox_witness :
  exists e b,
    CheckboxField join_classes Example.termsField
      (Example.env_over Example.store2) = Some e
    /\ query Checkbox e = Some b
    /\ props_of b !! "checked" = Some (PVal (VBool true))
    /\ props_of b !! "disabled" = Some (PVal VUndefined)
    /\ props_of b !! "required" = Some (boolean true).
Proof.
  destruct (CheckboxField_checkbox join_classes Example.termsField
              (Example.env_over Example.store2) (mkForm 0 initialFormState)
              Example.store2
              ltac:(vm_compute; reflexivity) ltac:(vm_compute; reflexivity))
    as (e & b & He & _ & _ & Hb & Hchecked & _ & Hdisabled & Hrequired & _).
  exists e, b. repeat split; assumption.
Defined.

Lemma SelectField_select_witness :
  exists e s v,
    SelectField Example.departmentField (Example.env_over Example.store2)
    = Some e
    /\ query Select e = Some s
    /\ props_of s !! "disabled" = Some (boolean false)
    /\ query SelectValue e = Some v
    /\ props_of v !! "placeholder" = Some (str "Select department").
Proof.
  destruct (SelectField_select Example.departmentField
              (Example.env_over Example.store2) (mkForm 0 initialFormState)
              Example.store2
              ltac:(vm_compute; reflexivity) ltac:(vm_compute; reflexivity))
    as (e & s & v & He & Hs & _ & Hdisabled & _ & Hv & Hplaceholder).
  exists e, s, v. repeat split; assumption.
Defined.

Lemma SelectField_item_keys_witness :
  exists e content,
    SelectField Example.departmentField (Example.env_over Example.store2)
    = Some e
    /\ query SelectContent e = Some content
    /\ (fun item => props_of item !! "key") <$> children_of content
       = [Some (str "engineering"); Some (str "marketing"); Some (str "sales")].
Proof.
  destruct (SelectField_item_keys Example.departmentField
              (Example.env_over Example.store2) (mkForm 0 initialFormState)
              Example.store2
              ltac:(vm_compute; reflexivity) ltac:(vm_compute; reflexivity))
    as (e & content & He & Hcontent & Hkeys & _).
  exists e, content. repeat split; assumption.
Defined.

Lemma unlabelled_field_has_no_marker_witness :
  exists e,
    render_field join_classes (checkbox_field Page.unlabelledTerms)
      (Example.env_over Example.store1) = Some e
    /\ query FormLabel e = None.
Proof.
  apply (unlabelled_field_has_no_marker join_classes
           (checkbox_field Page.unlabelledTerms)
           (Example.env_over Example.store1) (mkForm 0 initialFormState)
           Example.store1
           ltac:(vm_compute; reflexivity) ltac:(vm_compute; reflexivity)
           (or_introl eq_refl)).
  intros p H. discriminate H.
Defined.

Lemma SubmitButton_structure_witness :
  children_of (SubmitButton join_classes Example.submitButton)
  = [text "Submit"].
Proof.
  destruct (SubmitButton_structure join_classes Example.submitButton)
    as (_ & _ & H).
  apply H. discriminate.
Defined.

Lemma GenericForm_tree_witness :
  exists l env f,
    useForm_slot (first_world Example.props) = Some l
    /\ children_env (first_world Example.props) = Some env
    /\ children_of (from_option fst nothing
                      (GenericForm Example.props unmounted)) = [f]
    /\ type_of f = Some form_
    /\ length (children_of f) = 3.
Proof.
  destruct (GenericForm_tree Example.props unmounted
              (from_option fst nothing (GenericForm Example.props unmounted))
              (first_world Example.props)
              (or_introl eq_refl) ltac:(reflexivity))
    as (l & env & f & Hl & Henv & _ & Hf & Htype & _ & _ & Hlength & _).
  exists l, env, f. repeat split; assumption.
Defined.

Lemma form_of_leaves_renders_witness :
  (exists e w, GenericForm Example.props unmounted = Some (e, w))
  /\ forall w, mounted Example.props w ->
       exists e w', GenericForm Example.props w = Some (e, w').
Proof.
  apply (form_of_leaves_renders join_classes Page.leaves Example.props).
  reflexivity.
Defined.



Lemma form_keeps_to_its_store_witness :
  exists l,
    useForm_slot (from_option snd unmounted
                    (GenericForm Example.props Page.before_mount)) = Some l
    /\ heap Page.before_mount !! l = None
    /\ heap (from_option snd unmounted
               (GenericForm Example.props Page.before_mount)) !! 0
       = Some Example.store2.
Proof.
  destruct (form_keeps_to_its_store Example.props) as (Hmount & _).
  destruct (Hmount Page.before_mount
              (from_option fst nothing
                 (GenericForm Example.props Page.before_mount))
              (from_option snd unmounted
                 (GenericForm Example.props Page.before_mount))
              eq_refl ltac:(reflexivity))
    as (l & Hl & Hfree & _ & Hothers).
  exists l. split; [exact Hl |]. split; [exact Hfree |].
  rewrite Hothers; [reflexivity |].
  intros <-. vm_compute in Hfree. discriminate Hfree.
Defined.


Lemma render_twice_witness :
  exists handle,
    heap (world_after Example.props [Submit; Render; Render])
    = heap (world_after Example.props [Submit; Render])
    /\ useForm_slot (world_after Example.props [Submit; Render; Render])
       = useForm_slot (world_after Example.props [Submit; Render])
    /\ useForm_formState (world_after Example.props [Submit; Render; Render])
       = useForm_formState (world_after Example.props [Submit; Render])
    /\ ref_current (world_after Example.props [Submit; Render]) = Some handle
    /\ ref_current (world_after Example.props [Submit; Render; Render])
       = Some handle
    /\ handles (world_after Example.props [Submit; Render; Render])
       = (handles (world_after Example.props [Submit; Render]) ++ [handle])%list.
Proof.
  apply (render_twice Example.props
           (world_after Example.props [Submit])
           (world_after Example.props [Submit; Render])
           (world_after Example.props [Submit; Render; Render])
           None None
           (example_mounted [Submit] ltac:(runs)));
    reflexivity.
Defined.

Lemma reset_round_trip_witness :
  exists env e,
    children_env (world_after Example.props
                    [Change "name" (VString "Ann"); Submit;
                     Reset (Some {[ "name" := VString "Bob" ]}); Render])
    = Some env
    /\ render_field join_classes (text_field Example.nameField) env = Some e
    /\ rendered_value (text_field Example.nameField) e
       = Some (PVal (VString "Bob")).
Proof.
  destruct (reset_round_trip join_classes Example.props
              (Some {[ "name" := VString "Bob" ]})
              (world_after Example.props
                 [Change "name" (VString "Ann"); Submit])
              (world_after Example.props
                 [Change "name" (VString "Ann"); Submit;
                  Reset (Some {[ "name" := VString "Bob" ]})])
              (world_after Example.props
                 [Change "name" (VString "Ann"); Submit;
                  Reset (Some {[ "name" := VString "Bob" ]}); Render])
              None None
              (example_mounted [Change "name" (VString "Ann"); Submit]
                 ltac:(runs))
              ltac:(reflexivity) ltac:(reflexivity))
    as (c & c2 & env & _ & _ & _ & _ & Henv & Hfields).
  destruct (Hfields (text_field Example.nameField) (VString "Bob")
              ltac:(reflexivity) ltac:(reflexivity) ltac:(discriminate))
    as (e & He & Hv).
  exists env, e. repeat split; assumption.
Defined.

